(** * RailMap: the cost and time simulator

    A shallow embedding of [app/components/CostTimeSimulator.tsx] and of the
    configuration types of [app/data/types.ts] that it reads.

    Numbers.  A JavaScript [number] is modelled as an exact rational ([Q]):
    every finite double is a rational, and the arithmetic of the component
    ([*], [+], [Math.min], [Math.max]) is taken exactly, so rounding of
    doubles, infinities and NaN are outside the model.  Numeric results are
    compared with [==] ([Qeq]), the equality of rationals as numbers.

    Truthiness.  The component tests several optional fields with [!!x],
    [x || 0] and [if (x)].  A number is truthy when it is not zero, a string
    when it is not empty, and [undefined] (here [None]) never is. *)

From Stdlib Require Import QArith Qminmax String Ascii Bool List Lia Lqa.
From Stdlib Require Import Arith ZArith DecimalString DecimalNat.
Import ListNotations.

Open Scope Q_scope.

(** ** JavaScript values and truthiness *)

Module Js.

(** [number | string], the type of the day fields. *)
Inductive value : Type :=
| Num (n : Q)
| Str (s : string).

Definition truthy_num (n : Q) : bool := negb (Qeq_bool n 0).

Definition truthy_str (s : string) : bool :=
  match s with
  | EmptyString => false
  | String _ _ => true
  end.

Definition truthy (v : value) : bool :=
  match v with
  | Num n => truthy_num n
  | Str s => truthy_str s
  end.

(** [!!x] for an optional field. *)
Definition truthy_opt {A : Type} (t : A -> bool) (o : option A) : bool :=
  match o with
  | Some a => t a
  | None => false
  end.

(** The value of an optional field where [if (x)] succeeds. *)
Definition when_truthy {A : Type} (t : A -> bool) (o : option A) : option A :=
  match o with
  | Some a => if t a then Some a else None
  | None => None
  end.

(** [x || d] for an optional number. *)
Definition or_else (o : option Q) (d : Q) : Q :=
  match when_truthy truthy_num o with
  | Some n => n
  | None => d
  end.

(** [x === 'lit'] for an optional string. *)
Definition opt_is (o : option string) (lit : string) : bool :=
  match o with
  | Some s => String.eqb s lit
  | None => false
  end.

End Js.

Notation "o '<||>' d" := (Js.or_else o d) (at level 35, no associativity).

(** ** The configuration types ([app/data/types.ts]) *)

Record FeeModel : Type := {
  type : string;
  percent : option Q;
  fixed : option Q;
  flat : option Q;
  cap : option Q;
  flatDomestic : option Q;
  flatInternational : option Q;
  internationalMultiplier : option Q
}.

Record SettlementConfig : Type := {
  domesticDays : Js.value;
  internationalDays : option Js.value;
  settlementTimingLabel : option string
}.

Record EconomicsConfig : Type := {
  feeModel : FeeModel;
  settlement : SettlementConfig
}.

(** Of a scenario the simulator reads [transactionType] and [economics]; the
    descriptive fields (nodes, edges, metrics, ...) are not part of the
    model. *)
Record Scenario : Type := {
  id : string;
  title : string;
  transactionType : option string;
  economics : option EconomicsConfig
}.

(** ** The component ([app/components/CostTimeSimulator.tsx]) *)

(** [const isInternational = !!economics.settlement.internationalDays ||
      scenario.transactionType === 'International' ||
      (economics.feeModel.type === 'flat_with_international')] *)
Definition isInternational (scenario : Scenario) (economics : EconomicsConfig) : bool :=
  Js.truthy_opt Js.truthy (internationalDays (settlement economics))
  || Js.opt_is (transactionType scenario) "International"
  || String.eqb (type (feeModel economics)) "flat_with_international".

(** The body of the [feePerTransaction] memo.  The guard
    [if (!economics.feeModel) return 0] cannot fire on a value of type
    [EconomicsConfig], whose [feeModel] is a required object. *)
Definition feePerTransaction (amount : Q) (feeModel : FeeModel)
    (isInternational : bool) : Q :=
  let fee :=
    if String.eqb (type feeModel) "percent_plus_fixed" then
      amount * (percent feeModel <||> 0) + (fixed feeModel <||> 0)
    else if String.eqb (type feeModel) "percent_plus_fixed_with_cap" then
      let calculatedFee := amount * (percent feeModel <||> 0) + (fixed feeModel <||> 0) in
      match cap feeModel with
      | Some c => Qmin calculatedFee c
      | None => calculatedFee
      end
    else if String.eqb (type feeModel) "flat" then
      flat feeModel <||> 0
    else if String.eqb (type feeModel) "flat_with_international" then
      if isInternational then flatInternational feeModel <||> 0
      else flatDomestic feeModel <||> 0
    else if String.eqb (type feeModel) "wire" then
      let fee := flat feeModel <||> 0 in
      match (if isInternational
             then Js.when_truthy Js.truthy_num (internationalMultiplier feeModel)
             else None) with
      | Some multiplier => fee * multiplier
      | None => fee
      end
    else if String.eqb (type feeModel) "free" then
      0
    else
      0
  in
  Qmax 0 fee.

(** [feePerTransaction * monthlyVolume] *)
Definition monthlyFees (feePerTransaction monthlyVolume : Q) : Q :=
  feePerTransaction * monthlyVolume.

(** The body of the [settlementTime] memo. *)
Definition settlementTime (economics : EconomicsConfig) (isInternational : bool)
    : Js.value :=
  match Js.when_truthy Js.truthy_str (settlementTimingLabel (settlement economics)) with
  | Some label => Js.Str label
  | None =>
      match (if isInternational
             then Js.when_truthy Js.truthy (internationalDays (settlement economics))
             else None) with
      | Some days => days
      | None => domesticDays (settlement economics)
      end
  end.

(** What the component shows: the badge and the three results, before the
    currency formatting of the presentation. *)
Record View : Type := {
  international : bool;
  fee : Q;
  monthly : Q;
  settlementDisplay : Js.value
}.

(** The component as a function of its prop and of its two pieces of state;
    [None] is the [null] it returns when there is nothing to show. *)
Definition CostTimeSimulator (scenario : Scenario) (amount monthlyVolume : Q)
    : option View :=
  match economics scenario with
  | None => None
  | Some economics =>
      let isInternational := isInternational scenario economics in
      let feePerTransaction := feePerTransaction amount (feeModel economics) isInternational in
      let monthlyFees := monthlyFees feePerTransaction monthlyVolume in
      let settlementTime := settlementTime economics isInternational in
      Some {| international := isInternational;
              fee := feePerTransaction;
              monthly := monthlyFees;
              settlementDisplay := settlementTime |}
  end.

(** The initial state of the two sliders, [useState(50)] and [useState(200)]. *)
Definition initialAmount : Q := 50.
Definition initialMonthlyVolume : Q := 200.

(** ** The behaviour the specification describes

    These definitions follow the words of the specification, not the code;
    the theorems below compare them with the component. *)

Module Spec.

(** "Missing optional numeric fields default to 0." *)
Definition default0 (o : option Q) : Q :=
  match o with
  | Some n => n
  | None => 0
  end.

(** The six variants of the fee model table. *)
Definition recognized : list string :=
  [ "percent_plus_fixed"; "percent_plus_fixed_with_cap"; "flat";
    "flat_with_international"; "wire"; "free" ]%string.

(** Internationality, "evaluated in this priority, first true wins". *)
Definition isInternational (scenario : Scenario) (economics : EconomicsConfig) : bool :=
  if Js.truthy_opt Js.truthy (internationalDays (settlement economics)) then true
  else if Js.opt_is (transactionType scenario) "International" then true
  else if String.eqb (type (feeModel economics)) "flat_with_international" then true
  else false.

(** [min(amount*percent + fixed, cap)], clamped, every missing field
    (the cap too) read as 0. *)
Definition cappedFee (amount : Q) (feeModel : FeeModel) : Q :=
  Qmax 0 (Qmin (amount * default0 (percent feeModel) + default0 (fixed feeModel))
               (default0 (cap feeModel))).

(** [isInternational ? flat*multiplier : flat], a missing multiplier
    being "effectively 1". *)
Definition wireFee (feeModel : FeeModel) (isInternational : bool) : Q :=
  if isInternational
  then default0 (flat feeModel)
       * match internationalMultiplier feeModel with Some m => m | None => 1 end
  else default0 (flat feeModel).

(** Settlement time by presence of the fields: the label if present, else
    the international days if international and present, else the
    domestic days. *)
Definition settlementTime (economics : EconomicsConfig) (isInternational : bool)
    : Js.value :=
  match settlementTimingLabel (settlement economics) with
  | Some label => Js.Str label
  | None =>
      match internationalDays (settlement economics) with
      | Some days => if isInternational then days else domesticDays (settlement economics)
      | None => domesticDays (settlement economics)
      end
  end.

End Spec.

(** The multiplier the [wire] branch applies: the configured one when it is
    there and not zero, and none (a factor of 1) otherwise. *)
Definition appliedMultiplier (feeModel : FeeModel) : Q :=
  match internationalMultiplier feeModel with
  | Some m => if Qeq_bool m 0 then 1 else m
  | None => 1
  end.

(** The selection of the settlement display, case by case, with the tests
    the component makes: a field counts when it is truthy. *)
Inductive Selects (economics : EconomicsConfig) (isInternational : bool)
    : Js.value -> Prop :=
| SelectsLabel (label : string) :
    settlementTimingLabel (settlement economics) = Some label ->
    Js.truthy_str label = true ->
    Selects economics isInternational (Js.Str label)
| SelectsInternational (days : Js.value) :
    Js.truthy_opt Js.truthy_str (settlementTimingLabel (settlement economics)) = false ->
    isInternational = true ->
    internationalDays (settlement economics) = Some days ->
    Js.truthy days = true ->
    Selects economics isInternational days
| SelectsDomestic :
    Js.truthy_opt Js.truthy_str (settlementTimingLabel (settlement economics)) = false ->
    isInternational && Js.truthy_opt Js.truthy (internationalDays (settlement economics)) = false ->
    Selects economics isInternational (domesticDays (settlement economics)).

(** ** Sample configurations *)

Module Samples.

Definition noFields (t : string) : FeeModel :=
  {| type := t; percent := None; fixed := None; flat := None; cap := None;
     flatDomestic := None; flatInternational := None;
     internationalMultiplier := None |}.

(** [{type:'percent_plus_fixed_with_cap', percent:0.029, fixed:0.30}] with
    an optional cap. *)
Definition capped (c : option Q) : FeeModel :=
  {| type := "percent_plus_fixed_with_cap"; percent := Some (29 # 1000);
     fixed := Some (3 # 10); flat := None; cap := c;
     flatDomestic := None; flatInternational := None;
     internationalMultiplier := None |}.

(** [{type:'flat_with_international', flatDomestic:30, flatInternational:50}] *)
Definition wireTransfer : FeeModel :=
  {| type := "flat_with_international"; percent := None; fixed := None;
     flat := None; cap := None;
     flatDomestic := Some 30; flatInternational := Some 50;
     internationalMultiplier := None |}.

(** [{type:'wire', flat:f, internationalMultiplier:m}] *)
Definition legacyWire (f : Q) (m : option Q) : FeeModel :=
  {| type := "wire"; percent := None; fixed := None;
     flat := Some f; cap := None;
     flatDomestic := None; flatInternational := None;
     internationalMultiplier := m |}.

Definition settles (d : Js.value) (i : option Js.value) (l : option string)
    : SettlementConfig :=
  {| domesticDays := d; internationalDays := i; settlementTimingLabel := l |}.

Definition scenarioOf (t : option string) (e : option EconomicsConfig) : Scenario :=
  {| id := "sample"; title := "Sample"; transactionType := t; economics := e |}.

End Samples.

(** * The rest of the application

    The route diagram ([app/components/RouteDiagram.tsx]), the explorer page
    ([app/page.tsx]) and the navigation bar
    ([app/components/Navigation.tsx]). *)

(** ** Library functions the components call *)

Module JsLib.

(** [array.map((element, index) => ...)] *)
Fixpoint map_from {A B : Type} (f : A -> nat -> B) (index : nat) (l : list A) : list B :=
  match l with
  | [] => []
  | a :: l' => f a index :: map_from f (S index) l'
  end.

Definition map_index {A B : Type} (f : A -> nat -> B) (l : list A) : list B :=
  map_from f 0 l.

(** An array index inside a template literal: its decimal digits. *)
Definition index_string (index : nat) : string :=
  NilEmpty.string_of_uint (Nat.to_uint index).

(** An array index as a [number]. *)
Definition index_number (index : nat) : Q := inject_Z (Z.of_nat index).

(** [object || fallback]: an object is truthy, [undefined] and [null] are
    not. *)
Definition object_or {A : Type} (o : option A) (fallback : A) : A :=
  match o with
  | Some a => a
  | None => fallback
  end.

(** The entries of a [URLSearchParams], in order. *)
Definition SearchParams : Type := list (string * string).

(** [params.get(name)]: the first value of the name, or [null]. *)
Definition get (params : SearchParams) (name : string) : option string :=
  match List.find (fun entry => String.eqb (fst entry) name) params with
  | Some entry => Some (snd entry)
  | None => None
  end.

(** [params.set(name, value)]: the first entry of the name takes the value
    and the other entries of the name go; without one, a new entry is
    appended. *)
Fixpoint set (params : SearchParams) (name value : string) : SearchParams :=
  match params with
  | [] => [(name, value)]
  | entry :: params' =>
      if String.eqb (fst entry) name
      then (name, value)
           :: List.filter (fun entry' => negb (String.eqb (fst entry') name)) params'
      else entry :: set params' name value
  end.

(** The property names every object inherits from [Object.prototype]:
    [object[name]] is a function (for [__proto__] an object) there, not
    [undefined]. *)
Definition inherited : list string :=
  [ "constructor"; "hasOwnProperty"; "isPrototypeOf"; "propertyIsEnumerable";
    "toLocaleString"; "toString"; "valueOf"; "__proto__";
    "__defineGetter__"; "__defineSetter__"; "__lookupGetter__";
    "__lookupSetter__" ]%string.

End JsLib.

(** ** The descriptive part of a scenario ([app/data/types.ts]) *)

Inductive NodeType : Type :=
| user | wallet | terminal | merchant | processor | network
| issuer | bank | settlementNode | gateway | acquirer | other.

Module PaymentNode.
Record t : Type := {
  id : string;
  label : string;
  tooltip : string;
  type : NodeType
}.
End PaymentNode.

Module PaymentEdge.
Record t : Type := {
  from : string;
  to : string;
  label : string
}.
End PaymentEdge.

(** A scenario as the page and the diagram read it: the fields of the
    simulator ([core]) with the short name, the routing graph and the
    insight.  The subtitle, the tags, the metrics and the two lists of three
    bullets are only displayed. *)
Record Entry : Type := {
  core :> Scenario;
  shortName : option string;
  nodes : list PaymentNode.t;
  edges : list PaymentEdge.t;
  insight : option string
}.

(** The array [scenarios] of [app/data/scenarios].  The page reads
    [scenarios[0]] and [scenarios[1]] unguarded and takes the [id] of both
    in every render, so it renders only with two entries at least; the
    array is given by its first two entries and the rest. *)
Record Catalogue : Type := {
  scenario0 : Entry;
  scenario1 : Entry;
  more : list Entry
}.

Definition scenarios (c : Catalogue) : list Entry :=
  scenario0 c :: scenario1 c :: more c.

(** ** The route diagram ([app/components/RouteDiagram.tsx]) *)

Module FlowNode.
Record position_t : Type := { x : Q; y : Q }.
(** A node of the diagram; its [style] depends on the colour scheme only
    and is left out. *)
Record t : Type := {
  id : string;
  type : string;
  position : position_t;
  label : string
}.
End FlowNode.

Module FlowEdge.
(** An edge of the diagram, without its colours. *)
Record t : Type := {
  id : string;
  source : string;
  target : string;
  type : string;
  animated : bool;
  label : string
}.
End FlowEdge.

Module RouteDiagram.

(** [Math.max(1600, nodeCount * 200)] *)
Definition totalWidth (nodeCount : nat) : Q :=
  Qmax 1600 (JsLib.index_number nodeCount * 200).

(** [nodeCount > 1 ? totalWidth / (nodeCount - 1) : 0].  The quotient is
    the exact one; the component rounds it, and the products with the
    index, as doubles, so a coordinate of the model is the coordinate of
    the component up to that rounding and no more. *)
Definition spacing (nodeCount : nat) : Q :=
  if Nat.ltb 1 nodeCount
  then totalWidth nodeCount / (JsLib.index_number nodeCount - 1)
  else 0.

(** The body of the [nodes] memo: the nodes of a render in which the memo
    computes.  Its dependencies are [scenario.nodes] and [isDark]; a render
    in which only [simpleMode] or [simplifyLabel] changed keeps the nodes,
    and so the labels, of the render before. *)
Definition nodes (scenario : Entry) (simpleMode : bool)
    (simplifyLabel : option (string -> string)) : list FlowNode.t :=
  let nodeCount := length (nodes scenario) in
  let spacing := spacing nodeCount in
  JsLib.map_index
    (fun node index =>
       {| FlowNode.id := PaymentNode.id node;
          FlowNode.type := "default";
          FlowNode.position :=
            {| FlowNode.x := JsLib.index_number index * spacing; FlowNode.y := 200 |};
          FlowNode.label :=
            match (if simpleMode then simplifyLabel else None) with
            | Some simplify => simplify (PaymentNode.label node)
            | None => PaymentNode.label node
            end |})
    (nodes scenario).

(** The body of the [edges] memo. *)
Definition edges (scenario : Entry) : list FlowEdge.t :=
  JsLib.map_index
    (fun edge index =>
       {| FlowEdge.id :=
            (PaymentEdge.from edge ++ "-" ++ PaymentEdge.to edge ++ "-"
             ++ JsLib.index_string index)%string;
          FlowEdge.source := PaymentEdge.from edge;
          FlowEdge.target := PaymentEdge.to edge;
          FlowEdge.type := "smoothstep";
          FlowEdge.animated := true;
          FlowEdge.label := PaymentEdge.label edge |})
    (edges scenario).

End RouteDiagram.

(** ** The explorer page ([app/page.tsx]) *)

Module Explorer.

(** [if (!id) return null; return scenarios.find(s => s.id === id) || null] *)
Definition findScenarioById (c : Catalogue) (id' : option string) : option Entry :=
  match Js.when_truthy Js.truthy_str id' with
  | None => None
  | Some wanted => List.find (fun s : Entry => String.eqb (id s) wanted) (scenarios c)
  end.


(** [scenarios.find(s => s.id !== a.id) || scenarios[1]] *)
Definition otherThan (c : Catalogue) (a : Entry) : Entry :=
  JsLib.object_or
    (List.find (fun s : Entry => negb (String.eqb (id s) (id a))) (scenarios c))
    (scenario1 c).

(** The state of the page that the handlers below read and write; the
    flags of the collapsible sections and the key of the fade transition
    stand apart from it. *)
Record State : Type := {
  compareMode : bool;
  selectedScenario : Entry;
  scenarioA : Entry;
  scenarioB : Entry;
  isInitialized : bool;
  simpleMode : bool
}.

(** The value of [initialState], computed from the query of the URL. *)
Record Initial : Type := {
  initialCompareMode : bool;
  selected : Entry;
  a : Entry;
  b : Entry
}.

Definition initialState (c : Catalogue) (searchParams : JsLib.SearchParams) : Initial :=
  let compare := Js.opt_is (JsLib.get searchParams "compare") "1" in
  let scenarioId := JsLib.get searchParams "s" in
  let scenarioAId := JsLib.get searchParams "a" in
  let scenarioBId := JsLib.get searchParams "b" in
  if compare then
    let a := JsLib.object_or (findScenarioById c scenarioAId) (scenario0 c) in
    let b := JsLib.object_or (findScenarioById c scenarioBId) (scenario1 c) in
    let finalB := if String.eqb (id a) (id b) then otherThan c a else b in
    {| initialCompareMode := true; selected := a; a := a; b := finalB |}
  else
    let selected := JsLib.object_or (findScenarioById c scenarioId) (scenario0 c) in
    {| initialCompareMode := false; selected := selected;
       a := scenario0 c; b := scenario1 c |}.

(** The state of the first render: the [useState] calls. *)
Definition initial (c : Catalogue) (searchParams : JsLib.SearchParams) : State :=
  let initialState := initialState c searchParams in
  {| compareMode := initialCompareMode initialState;
     selectedScenario := selected initialState;
     scenarioA := a initialState;
     scenarioB := b initialState;
     isInitialized := false;
     simpleMode := false |}.

(** [updateURL]: the query it hands to [router.replace], or [None] when it
    returns before the first render is over. *)
Definition updateURL (isInitialized compare : bool) (selected a b : option Entry)
    : option JsLib.SearchParams :=
  if negb isInitialized then None
  else
    let params : JsLib.SearchParams := [] in
    Some
      (if compare then
         let params := JsLib.set params "compare" "1" in
         let params := match a with Some a => JsLib.set params "a" (id a) | None => params end in
         match b with Some b => JsLib.set params "b" (id b) | None => params end
       else
         match selected with Some selected => JsLib.set params "s" (id selected) | None => params end).

(** The effect that keeps the URL in step with the state. *)
Definition syncURL (st : State) : option JsLib.SearchParams :=
  if negb (isInitialized st) then None
  else if compareMode st
  then updateURL (isInitialized st) true None (Some (scenarioA st)) (Some (scenarioB st))
  else updateURL (isInitialized st) false (Some (selectedScenario st)) None None.

(** The effect of the first render: [setIsInitialized(true)]. *)
Definition markInitialized (st : State) : State :=
  {| compareMode := compareMode st; selectedScenario := selectedScenario st;
     scenarioA := scenarioA st; scenarioB := scenarioB st;
     isInitialized := true; simpleMode := simpleMode st |}.

Definition setScenarios (st : State) (newA newB : Entry) : State :=
  {| compareMode := compareMode st; selectedScenario := selectedScenario st;
     scenarioA := newA; scenarioB := newB;
     isInitialized := isInitialized st; simpleMode := simpleMode st |}.

(** The "Compare Mode" button. *)
Definition toggleCompareMode (c : Catalogue) (st : State) : State :=
  let newCompareMode := negb (compareMode st) in
  {| compareMode := newCompareMode;
     selectedScenario := selectedScenario st;
     scenarioA := scenarioA st;
     scenarioB :=
       if newCompareMode && String.eqb (id (scenarioA st)) (id (scenarioB st))
       then otherThan c (scenarioA st)
       else scenarioB st;
     isInitialized := isInitialized st; simpleMode := simpleMode st |}.

(** [onSelect] of the dropdown "Scenario A". *)
Definition selectA (st : State) (scenario : Entry) : State :=
  if String.eqb (id scenario) (id (scenarioB st))
  then setScenarios st (scenarioB st) scenario
  else setScenarios st scenario (scenarioB st).

(** [onSelect] of the dropdown "Scenario B". *)
Definition selectB (st : State) (scenario : Entry) : State :=
  if String.eqb (id scenario) (id (scenarioA st))
  then setScenarios st scenario (scenarioA st)
  else setScenarios st (scenarioA st) scenario.

(** [onClick] of a scenario of the list. *)
Definition clickScenario (st : State) (scenario : Entry) : State :=
  if compareMode st then
    let isA := String.eqb (id (scenarioA st)) (id scenario) in
    let isB := String.eqb (id (scenarioB st)) (id scenario) in
    if isA then
      let newA := scenarioB st in
      let newB := scenario in
      setScenarios st newA newB
    else if isB then
      let newA := scenario in
      let newB := scenarioA st in
      setScenarios st newA newB
    else if String.eqb (id (scenarioA st)) (id (scenarioB st))
    then setScenarios st scenario (scenarioB st)
    else setScenarios st (scenarioA st) scenario
  else
    {| compareMode := compareMode st; selectedScenario := scenario;
       scenarioA := scenarioA st; scenarioB := scenarioB st;
       isInitialized := isInitialized st; simpleMode := simpleMode st |}.

(** The scenarios whose simulator the page mounts:
    [scenarioA.economics && scenarioB.economics && ...] in compare mode,
    [selectedScenario.economics && ...] otherwise. *)
Definition simulators (st : State) : list Scenario :=
  if compareMode st then
    match economics (scenarioA st), economics (scenarioB st) with
    | Some _, Some _ => [core (scenarioA st); core (scenarioB st)]
    | _, _ => []
    end
  else
    match economics (selectedScenario st) with
    | Some _ => [core (selectedScenario st)]
    | None => []
    end.

(** The own properties of [labelMap]. *)
Definition labelMap : list (string * string) :=
  [ ("Issuer Bank", "Your bank");
    ("Your Bank", "Your bank");
    ("Payment Processor", "Payment processor");
    ("Card Network", "Visa / Mastercard network");
    ("Interac Network", "Interac network");
    ("SWIFT Network", "SWIFT network");
    ("Interac e-Transfer", "Interac e-Transfer");
    ("Acquirer Bank", "Merchant's bank");
    ("Recipient Bank", "Recipient's bank");
    ("Payment Gateway", "Payment processor");
    ("Settlement", "Funds transferred") ]%string.

(** [labelMap[label] || label].  The own properties are looked up by
    name, the first entry of the name counting; the result is [None] where
    the lookup finds an inherited property of the object instead, whose
    value is no string. *)
Definition simplifyNodeLabel (label : string) : option string :=
  match JsLib.get labelMap label with
  | Some simple => Some (if Js.truthy_str simple then simple else label)
  | None =>
      if List.existsb (String.eqb label) JsLib.inherited then None
      else Some label
  end.

End Explorer.

(** ** The navigation bar ([app/components/Navigation.tsx]) *)

Module Navigation.

Record link : Type := { href : string; label : string }.

Definition navLinks : list link :=
  [ {| href := "/"; label := "Explorer" |};
    {| href := "/glossary"; label := "Glossary" |};
    {| href := "/about"; label := "About" |} ].

(** [const isActive = pathname === link.href] *)
Definition isActive (pathname : string) (l : link) : bool :=
  String.eqb pathname (href l).

(** The links drawn as active. *)
Definition active (pathname : string) : list link :=
  List.filter (isActive pathname) navLinks.

End Navigation.

(** ** Clicks on the list and on the "Compare Mode" button *)

Module Session.

Inductive event : Type :=
| Click (scenario : Entry)
| Toggle.

Definition step (c : Catalogue) (st : Explorer.State) (e : event) : Explorer.State :=
  match e with
  | Click scenario => Explorer.clickScenario st scenario
  | Toggle => Explorer.toggleCompareMode c st
  end.

(** The state after the first render and a run of events. *)
Definition run (c : Catalogue) (searchParams : JsLib.SearchParams) (events : list event)
    : Explorer.State :=
  fold_left (step c) events (Explorer.markInitialized (Explorer.initial c searchParams)).

End Session.

(** ** A sample catalogue *)

Module Catalogues.

Definition node (i l : string) (t : NodeType) : PaymentNode.t :=
  {| PaymentNode.id := i; PaymentNode.label := l;
     PaymentNode.tooltip := l; PaymentNode.type := t |}.

Definition edge (f t l : string) : PaymentEdge.t :=
  {| PaymentEdge.from := f; PaymentEdge.to := t; PaymentEdge.label := l |}.

Definition entry (i t : string) (short : option string)
    (e : option EconomicsConfig) (n : list PaymentNode.t) (es : list PaymentEdge.t)
    : Entry :=
  {| core := {| id := i; title := t; transactionType := Some "Domestic"%string;
                economics := e |};
     shortName := short; nodes := n; edges := es; insight := None |}.

Definition debit : Entry :=
  entry "interac-debit" "Interac Debit at a store" (Some "Debit"%string)
    (Some {| feeModel := Samples.capped (Some (9 # 5));
             settlement := Samples.settles (Js.Num 1) None None |})
    [ node "user" "Cardholder" user; node "terminal" "Terminal" terminal;
      node "issuer" "Issuer Bank" issuer ]
    [ edge "user" "terminal" "tap"; edge "terminal" "issuer" "authorize";
      edge "terminal" "issuer" "settle" ].

Definition credit : Entry :=
  entry "credit-card" "Credit card online" None
    (Some {| feeModel := Samples.capped None;
             settlement := Samples.settles (Js.Num 2) None None |})
    [ node "user" "Cardholder" user; node "gateway" "Payment Gateway" gateway ]
    [ edge "user" "gateway" "pay" ].

Definition wire : Entry :=
  entry "wire" "Wire transfer" (Some EmptyString) None
    [ node "bank" "Your Bank" bank ] [].

Definition sample : Catalogue :=
  {| scenario0 := debit; scenario1 := credit; more := [wire] |}.

Definition stateOf (compare : bool) (s a b : Entry) : Explorer.State :=
  {| Explorer.compareMode := compare; Explorer.selectedScenario := s;
     Explorer.scenarioA := a; Explorer.scenarioB := b;
     Explorer.isInitialized := true; Explorer.simpleMode := false |}.

End Catalogues.

(** Selects the branch of [feePerTransaction] for the type named by [H]. *)
Ltac fee_branch H :=
  unfold feePerTransaction; rewrite H; simpl String.eqb; cbv iota.

(** ** Truthiness and defaults *)

Section Defaults.

Lemma truthy_num_false (n : Q) : Js.truthy_num n = false <-> n == 0.
Proof.
  unfold Js.truthy_num. rewrite negb_false_iff. apply Qeq_bool_iff.
Qed.

Lemma truthy_num_true (n : Q) : Js.truthy_num n = true <-> ~ n == 0.
Proof.
  rewrite <- truthy_num_false. destruct (Js.truthy_num n); intuition congruence.
Qed.

Lemma truthy_str_true (s : string) : Js.truthy_str s = true <-> s <> EmptyString.
Proof.
  destruct s; simpl; split; intro H; congruence.
Qed.

(** [x || 0] is the field, or 0 when the field is missing: a zero field
    and a missing one give the same number. *)
Lemma or_else_default0 (o : option Q) : o <||> 0 == Spec.default0 o.
Proof.
  destruct o as [n|]; unfold Js.or_else; simpl; [|reflexivity].
  destruct (Js.truthy_num n) eqn:E; [reflexivity|].
  apply truthy_num_false in E. now rewrite E.
Qed.

Lemma when_truthy_none {A : Type} (t : A -> bool) (o : option A) :
  Js.when_truthy t o = None <-> Js.truthy_opt t o = false.
Proof.
  destruct o as [a|]; simpl; [|tauto].
  destruct (t a); split; congruence.
Qed.

Lemma when_truthy_some {A : Type} (t : A -> bool) (o : option A) (a : A) :
  Js.when_truthy t o = Some a <-> o = Some a /\ t a = true.
Proof.
  destruct o as [b|]; simpl.
  - destruct (t b) eqn:E; split.
    + intros [= <-]. auto.
    + intros [[= <-] _]. reflexivity.
    + discriminate.
    + intros [[= <-] H]. congruence.
  - split; [discriminate | intros [H _]; discriminate].
Qed.

End Defaults.

(** ** Internationality *)

(** C1.  The international flag is the first-true-wins evaluation of the
    three signals, and it is true exactly when one of them holds: the
    settlement's internationalDays is truthy, the scenario's transactionType
    is "International", or the fee model's type is
    "flat_with_international"; otherwise the transaction is domestic. *)
Theorem isInternational_signals (scenario : Scenario) (economics : EconomicsConfig) :
  isInternational scenario economics = Spec.isInternational scenario economics
  /\ (isInternational scenario economics = true <->
        Js.truthy_opt Js.truthy (internationalDays (settlement economics)) = true
        \/ transactionType scenario = Some "International"%string
        \/ type (feeModel economics) = "flat_with_international"%string)
  /\ (isInternational scenario economics = false <->
        Js.truthy_opt Js.truthy (internationalDays (settlement economics)) = false
        /\ transactionType scenario <> Some "International"%string
        /\ type (feeModel economics) <> "flat_with_international"%string).
Proof.
  assert (Ht : Js.opt_is (transactionType scenario) "International" = true <->
               transactionType scenario = Some "International"%string).
  { unfold Js.opt_is. destruct (transactionType scenario) as [s|].
    - rewrite String.eqb_eq. split; congruence.
    - split; discriminate. }
  pose proof (String.eqb_eq (type (feeModel economics)) "flat_with_international") as Hf.
  assert (Hflag : isInternational scenario economics = true <->
            Js.truthy_opt Js.truthy (internationalDays (settlement economics)) = true
            \/ transactionType scenario = Some "International"%string
            \/ type (feeModel economics) = "flat_with_international"%string).
  { unfold isInternational. rewrite !orb_true_iff, Ht, Hf. tauto. }
  split; [|split].
  - unfold isInternational, Spec.isInternational.
    destruct (Js.truthy_opt Js.truthy (internationalDays (settlement economics)));
      destruct (Js.opt_is (transactionType scenario) "International");
      destruct (String.eqb (type (feeModel economics)) "flat_with_international");
      reflexivity.
  - exact Hflag.
  - rewrite <- not_true_iff_false, Hflag, <- (not_true_iff_false (Js.truthy_opt _ _)).
    tauto.
Qed.

(** ** The fee, variant by variant *)

Section Fee.

Variables (amount : Q) (feeModel : FeeModel) (isInternational : bool).

Lemma fee_capped_branch :
  type feeModel = "percent_plus_fixed_with_cap"%string ->
  feePerTransaction amount feeModel isInternational =
  Qmax 0 (match cap feeModel with
          | Some c => Qmin (amount * (percent feeModel <||> 0) + (fixed feeModel <||> 0)) c
          | None => amount * (percent feeModel <||> 0) + (fixed feeModel <||> 0)
          end).
Proof. intro H. fee_branch H. reflexivity. Qed.

Lemma fee_flat_with_international_branch :
  type feeModel = "flat_with_international"%string ->
  feePerTransaction amount feeModel isInternational =
  Qmax 0 (if isInternational then flatInternational feeModel <||> 0
          else flatDomestic feeModel <||> 0).
Proof. intro H. fee_branch H. reflexivity. Qed.

Lemma fee_wire_branch :
  type feeModel = "wire"%string ->
  feePerTransaction amount feeModel isInternational =
  Qmax 0 (match (if isInternational
                 then Js.when_truthy Js.truthy_num (internationalMultiplier feeModel)
                 else None) with
          | Some multiplier => (flat feeModel <||> 0) * multiplier
          | None => flat feeModel <||> 0
          end).
Proof. intro H. fee_branch H. reflexivity. Qed.

Lemma fee_unmatched_branch :
  ~ In (type feeModel) Spec.recognized ->
  feePerTransaction amount feeModel isInternational = Qmax 0 0.
Proof.
  intro H. unfold feePerTransaction.
  repeat match goal with
  | |- context [String.eqb (type feeModel) ?lit] =>
      destruct (String.eqb_spec (type feeModel) lit) as [E|_];
      [ elim H; rewrite E; simpl; tauto | ]
  end.
  reflexivity.
Qed.

End Fee.

(** C6.  Whatever the amount, the fee model (its variant and which of its
    optional fields are there) and the international flag, the fee per
    transaction is at least 0. *)
Theorem feePerTransaction_nonneg (amount : Q) (feeModel : FeeModel)
    (isInternational : bool) :
  0 <= feePerTransaction amount feeModel isInternational.
Proof.
  unfold feePerTransaction. apply Q.le_max_l.
Qed.

(** C8.  A fee model whose type is none of the six variants gives a fee of
    exactly 0, for every amount and international flag; the function returns
    this number like any other, there is no error outcome. *)
Theorem feePerTransaction_unknown_type (amount : Q) (feeModel : FeeModel)
    (isInternational : bool) :
  ~ In (type feeModel) Spec.recognized ->
  feePerTransaction amount feeModel isInternational = 0.
Proof.
  intro H. rewrite fee_unmatched_branch by exact H. reflexivity.
Qed.

Lemma feePerTransaction_unknown_type_witness :
  ~ In (type (Samples.noFields "crypto")) Spec.recognized
  /\ feePerTransaction 5000 (Samples.noFields "crypto") true = 0.
Proof.
  assert (H : ~ In (type (Samples.noFields "crypto")) Spec.recognized).
  { simpl. intros [E|[E|[E|[E|[E|[E|[]]]]]]]; discriminate E. }
  split; [exact H | exact (feePerTransaction_unknown_type 5000 _ true H)].
Defined.

(** ** The component *)

(** C9.  For a scenario without an economics configuration the component
    returns null: no view, hence no fee and no settlement value, whatever
    the state of the sliders. *)
Theorem CostTimeSimulator_null (scenario : Scenario) (amount monthlyVolume : Q) :
  economics scenario = None ->
  CostTimeSimulator scenario amount monthlyVolume = None.
Proof.
  intro H. unfold CostTimeSimulator. rewrite H. reflexivity.
Qed.

Lemma CostTimeSimulator_null_witness :
  economics (Samples.scenarioOf (Some "Domestic"%string) None) = None
  /\ CostTimeSimulator (Samples.scenarioOf (Some "Domestic"%string) None)
       initialAmount initialMonthlyVolume = None.
Proof.
  split; [reflexivity | apply CostTimeSimulator_null; reflexivity].
Defined.

(** The component shows a view exactly when the scenario has an economics
    configuration. *)
Lemma CostTimeSimulator_shown (scenario : Scenario) (amount monthlyVolume : Q) :
  (exists view, CostTimeSimulator scenario amount monthlyVolume = Some view)
  <-> economics scenario <> None.
Proof.
  unfold CostTimeSimulator. destruct (economics scenario); split.
  - discriminate.
  - intros _. eexists. reflexivity.
  - intros [v H]. discriminate.
  - intro H. now elim H.
Qed.

(** C5.  In every view the component shows, the monthly fees are the fee per
    transaction times the monthly volume, as an exact product: nothing is
    rounded.  At a volume of 1 they are the fee itself. *)
Theorem monthlyFees_product (scenario : Scenario) (amount monthlyVolume : Q)
    (view : View) :
  CostTimeSimulator scenario amount monthlyVolume = Some view ->
  monthly view = fee view * monthlyVolume
  /\ (monthlyVolume == 1 -> monthly view == fee view).
Proof.
  unfold CostTimeSimulator. destruct (economics scenario) as [e|]; [|discriminate].
  intros [= <-]. simpl. unfold monthlyFees. split; [reflexivity|].
  intros ->. apply Qmult_1_r.
Qed.

Lemma monthlyFees_product_witness :
  let scenario :=
    Samples.scenarioOf (Some "Domestic"%string)
      (Some {| feeModel := Samples.capped (Some (9 # 5));
               settlement := Samples.settles (Js.Num 1) None None |}) in
  exists view,
    CostTimeSimulator scenario 100 2000 = Some view
    /\ monthly view = fee view * 2000
    /\ monthly view == 3600.
Proof.
  intro scenario. eexists. split; [reflexivity|].
  split.
  - apply (monthlyFees_product scenario 100 2000). reflexivity.
  - vm_compute. reflexivity.
Defined.

(** ** The capped variant *)

(** The example of the specification: 100 * 0.029 + 0.30 = 3.20, capped at
    1.80. *)
Example capped_fee_example :
  feePerTransaction 100 (Samples.capped (Some (9 # 5))) false == 9 # 5.
Proof. vm_compute. reflexivity. Qed.

(** C2, as stated, fails: with no cap configured the component charges the
    uncapped 100 * 0.029 + 0.30 = 3.20, where a cap defaulting to 0 would
    give min(3.20, 0) = 0. *)
Lemma capped_fee_missing_cap_counterexample :
  feePerTransaction 100 (Samples.capped None) false == 16 # 5
  /\ Spec.cappedFee 100 (Samples.capped None) == 0
  /\ ~ feePerTransaction 100 (Samples.capped None) false
       == Spec.cappedFee 100 (Samples.capped None).
Proof.
  repeat split; vm_compute; congruence.
Qed.

(** C2, amended.  For a fee model of type "percent_plus_fixed_with_cap" the
    fee is min(amount*percent + fixed, cap) clamped at 0 when a cap is
    configured, and amount*percent + fixed clamped at 0, uncapped, when the
    cap is missing; a missing percent or fixed counts as 0. *)
Theorem capped_fee (amount : Q) (feeModel : FeeModel) (isInternational : bool) :
  type feeModel = "percent_plus_fixed_with_cap"%string ->
  feePerTransaction amount feeModel isInternational ==
  Qmax 0 (match cap feeModel with
          | Some c =>
              Qmin (amount * Spec.default0 (percent feeModel)
                    + Spec.default0 (fixed feeModel)) c
          | None =>
              amount * Spec.default0 (percent feeModel) + Spec.default0 (fixed feeModel)
          end).
Proof.
  intro H. rewrite fee_capped_branch by exact H.
  destruct (cap feeModel) as [c|]; rewrite !or_else_default0; reflexivity.
Qed.

Lemma capped_fee_witness :
  type (Samples.capped None) = "percent_plus_fixed_with_cap"%string
  /\ feePerTransaction 100 (Samples.capped (Some (9 # 5))) false
     == Qmax 0 (Qmin (100 * (29 # 1000) + (3 # 10)) (9 # 5))
  /\ feePerTransaction 100 (Samples.capped None) false
     == Qmax 0 (100 * (29 # 1000) + (3 # 10)).
Proof.
  split; [reflexivity|]. split.
  - apply (capped_fee 100 (Samples.capped (Some (9 # 5))) false). reflexivity.
  - apply (capped_fee 100 (Samples.capped None) false). reflexivity.
Defined.

(** ** The wire variant *)

(** C7, as stated, fails twice.  A configured multiplier of 0 is not applied,
    so an international wire with flat 10 costs 10 and not 10 * 0; and the
    fee is clamped, so a negative flat gives 0 and not the flat itself. *)
Lemma wire_fee_counterexample :
  (feePerTransaction 50 (Samples.legacyWire 10 (Some 0)) true == 10
   /\ Spec.wireFee (Samples.legacyWire 10 (Some 0)) true == 0)
  /\ (feePerTransaction 50 (Samples.legacyWire (-5) None) false == 0
      /\ Spec.wireFee (Samples.legacyWire (-5) None) false == -5)
  /\ ~ (forall amount feeModel isInternational,
          type feeModel = "wire"%string ->
          feePerTransaction amount feeModel isInternational
          == Spec.wireFee feeModel isInternational).
Proof.
  repeat split; try (vm_compute; congruence).
  intro H. specialize (H 50 (Samples.legacyWire 10 (Some 0)) true eq_refl).
  vm_compute in H. discriminate H.
Qed.

(** C7, amended.  For a fee model of type "wire" the fee is, clamped at 0,
    flat times the multiplier when the transaction is international and flat
    when it is domestic, where a missing flat counts as 0 and a multiplier
    that is missing or 0 is not applied (a factor of 1). *)
Theorem wire_fee (amount : Q) (feeModel : FeeModel) (isInternational : bool) :
  type feeModel = "wire"%string ->
  feePerTransaction amount feeModel isInternational ==
  Qmax 0 (if isInternational
          then Spec.default0 (flat feeModel) * appliedMultiplier feeModel
          else Spec.default0 (flat feeModel)).
Proof.
  intro H. rewrite fee_wire_branch by exact H.
  unfold appliedMultiplier, Js.when_truthy, Js.truthy_num.
  destruct isInternational; [|now rewrite or_else_default0].
  destruct (internationalMultiplier feeModel) as [m|];
    [destruct (Qeq_bool m 0)|]; simpl;
    rewrite or_else_default0; try reflexivity;
    now rewrite Qmult_1_r.
Qed.

Lemma wire_fee_witness :
  type (Samples.legacyWire 40 (Some (5 # 4))) = "wire"%string
  /\ feePerTransaction 50 (Samples.legacyWire 40 (Some (5 # 4))) true
     == Qmax 0 (40 * (5 # 4))
  /\ feePerTransaction 50 (Samples.legacyWire 40 (Some (5 # 4))) false
     == Qmax 0 40
  /\ feePerTransaction 50 (Samples.legacyWire 40 (Some 0)) true
     == Qmax 0 (40 * 1).
Proof.
  split; [reflexivity|]. split; [|split].
  - apply (wire_fee 50 (Samples.legacyWire 40 (Some (5 # 4))) true). reflexivity.
  - apply (wire_fee 50 (Samples.legacyWire 40 (Some (5 # 4))) false). reflexivity.
  - apply (wire_fee 50 (Samples.legacyWire 40 (Some 0)) true). reflexivity.
Defined.

(** ** The settlement display *)

(** The example of the specification: a label wins over both day counts. *)
Example settlementTime_label_example :
  settlementTime
    {| feeModel := Samples.noFields "free";
       settlement := Samples.settles (Js.Num 1) (Some (Js.Num 3))
                       (Some "Typically T+1"%string) |} true
  = Js.Str "Typically T+1".
Proof. reflexivity. Qed.

(** C3, as stated, fails where a field is present but not truthy.  An empty
    label is present, yet the display is the domestic days and not the
    label; international days of 0 are present on an international
    scenario, yet the display is the domestic days and not 0. *)
Lemma settlementTime_presence_counterexample :
  let emptyLabel :=
    {| feeModel := Samples.noFields "free";
       settlement := Samples.settles (Js.Num 1) None (Some EmptyString) |} in
  let zeroDays :=
    {| feeModel := Samples.noFields "free";
       settlement := Samples.settles (Js.Num 1) (Some (Js.Num 0)) None |} in
  let abroad := Samples.scenarioOf (Some "International"%string) (Some zeroDays) in
  (settlementTime emptyLabel false = Js.Num 1
   /\ Spec.settlementTime emptyLabel false = Js.Str EmptyString
   /\ settlementTime emptyLabel false <> Spec.settlementTime emptyLabel false)
  /\ (isInternational abroad zeroDays = true
      /\ settlementTime zeroDays (isInternational abroad zeroDays) = Js.Num 1
      /\ Spec.settlementTime zeroDays (isInternational abroad zeroDays) = Js.Num 0
      /\ settlementTime zeroDays (isInternational abroad zeroDays)
         <> Spec.settlementTime zeroDays (isInternational abroad zeroDays)).
Proof.
  cbv zeta. repeat split; try reflexivity; vm_compute; discriminate.
Qed.

(** C3, amended.  The settlement display is the settlementTimingLabel,
    verbatim, when the label is truthy (present and not empty); otherwise
    the internationalDays when the transaction is international and
    internationalDays is truthy (present and neither 0 nor empty); otherwise
    the domesticDays.  The value is returned as it is configured, a number
    staying a number and a text a text; [Selects] is this case analysis and
    the component's value is the one value it selects. *)
Theorem settlementTime_selects (economics : EconomicsConfig) (isInternational : bool)
    (display : Js.value) :
  Selects economics isInternational display
  <-> display = settlementTime economics isInternational.
Proof.
  unfold settlementTime. split.
  - intros [label Hl Ht | days Hl Hi Hd Ht | Hl Hd].
    + rewrite Hl. simpl. rewrite Ht. reflexivity.
    + apply when_truthy_none in Hl. rewrite Hl, Hi, Hd. simpl. rewrite Ht. reflexivity.
    + apply when_truthy_none in Hl. rewrite Hl.
      destruct isInternational; [|reflexivity].
      simpl in Hd. apply when_truthy_none in Hd. rewrite Hd. reflexivity.
  - intros ->.
    destruct (Js.when_truthy Js.truthy_str _) as [label|] eqn:Hl.
    + apply when_truthy_some in Hl as [Hl Ht]. now apply SelectsLabel.
    + apply when_truthy_none in Hl.
      destruct isInternational.
      * destruct (Js.when_truthy Js.truthy _) as [days|] eqn:Hd.
        -- apply when_truthy_some in Hd as [Hd Ht]. now apply SelectsInternational.
        -- apply when_truthy_none in Hd. now apply SelectsDomestic.
      * now apply SelectsDomestic.
Qed.

Lemma settlementTime_selects_witness :
  let economics :=
    {| feeModel := Samples.noFields "free";
       settlement := Samples.settles (Js.Num 1) (Some (Js.Num 3)) (Some EmptyString) |} in
  Selects economics true (Js.Num 3)
  /\ Selects economics false (Js.Num 1)
  /\ ~ Selects economics true (Js.Str EmptyString).
Proof.
  intro economics. split; [|split].
  - apply (settlementTime_selects economics true (Js.Num 3)). reflexivity.
  - apply (settlementTime_selects economics false (Js.Num 1)). reflexivity.
  - intro H. apply (settlementTime_selects economics true (Js.Str EmptyString)) in H.
    discriminate H.
Defined.

(** ** A zero day count *)

(** International days of 0 change nothing: the component shows what it
    would show were the field missing. *)
Lemma zero_internationalDays_ignored (scenario : Scenario) (fm : FeeModel)
    (d : Js.value) (l : option string) (z amount monthlyVolume : Q) :
  z == 0 ->
  CostTimeSimulator
    {| id := id scenario; title := title scenario;
       transactionType := transactionType scenario;
       economics := Some {| feeModel := fm;
                            settlement := Samples.settles d (Some (Js.Num z)) l |} |}
    amount monthlyVolume
  = CostTimeSimulator
      {| id := id scenario; title := title scenario;
         transactionType := transactionType scenario;
         economics := Some {| feeModel := fm;
                              settlement := Samples.settles d None l |} |}
      amount monthlyVolume.
Proof.
  intro Hz. apply truthy_num_false in Hz.
  unfold CostTimeSimulator, isInternational, settlementTime. simpl.
  rewrite Hz. simpl.
  destruct (Js.opt_is _ _ || String.eqb _ _); reflexivity.
Qed.

(** C10.  International days of numeric 0 do not make the transaction
    international: with a transactionType other than "International" and a
    fee model other than "flat_with_international" the flag is false; and
    with no settlementTimingLabel the display is then the domesticDays, not
    the 0. *)
Theorem zero_internationalDays_as_absent (scenario : Scenario)
    (economics : EconomicsConfig) (z : Q) :
  internationalDays (settlement economics) = Some (Js.Num z) ->
  z == 0 ->
  transactionType scenario <> Some "International"%string ->
  type (feeModel economics) <> "flat_with_international"%string ->
  settlementTimingLabel (settlement economics) = None ->
  isInternational scenario economics = false
  /\ settlementTime economics (isInternational scenario economics)
     = domesticDays (settlement economics).
Proof.
  intros Hd Hz Ht Hf Hl.
  assert (Hi : isInternational scenario economics = false).
  { unfold isInternational. rewrite Hd. simpl.
    apply truthy_num_false in Hz. rewrite Hz. simpl.
    apply orb_false_iff. split.
    - unfold Js.opt_is. destruct (transactionType scenario) as [s|]; [|reflexivity].
      apply String.eqb_neq. congruence.
    - now apply String.eqb_neq. }
  split; [exact Hi|].
  rewrite Hi. unfold settlementTime. rewrite Hl. reflexivity.
Qed.

Lemma zero_internationalDays_as_absent_witness :
  let economics :=
    {| feeModel := Samples.capped (Some (9 # 5));
       settlement := Samples.settles (Js.Num 2) (Some (Js.Num 0)) None |} in
  let scenario := Samples.scenarioOf (Some "Domestic"%string) (Some economics) in
  isInternational scenario economics = false
  /\ settlementTime economics (isInternational scenario economics) = Js.Num 2.
Proof.
  intros economics scenario.
  apply (zero_internationalDays_as_absent scenario economics 0).
  - reflexivity.
  - reflexivity.
  - discriminate.
  - discriminate.
  - reflexivity.
Defined.

(** ** The flat fee with an international rate *)

(** The type test of [isInternational] covers every fee model of type
    "flat_with_international", so the component never reaches the
    [flatDomestic] arm of the fee branch written for this type: the fee is
    the international one whatever the settlement configuration and the
    transactionType say. *)
Lemma flat_with_international_fee (scenario : Scenario) (economics : EconomicsConfig)
    (amount : Q) :
  type (feeModel economics) = "flat_with_international"%string ->
  isInternational scenario economics = true
  /\ feePerTransaction amount (feeModel economics) (isInternational scenario economics)
     = Qmax 0 (flatInternational (feeModel economics) <||> 0).
Proof.
  intro H.
  assert (Hi : isInternational scenario economics = true).
  { unfold isInternational. rewrite H. apply orb_true_r. }
  split; [exact Hi|].
  rewrite Hi. now rewrite fee_flat_with_international_branch.
Qed.

(** C4.  With the fee model [{type:"flat_with_international",
    flatDomestic:30, flatInternational:50}] the fee branch gives 50 for an
    international and 30 for a domestic transaction, and with
    internationalDays present the component shows 50.  On a scenario of
    transactionType "Domestic" without internationalDays, where the fee
    should be 30, the component derives an international transaction from
    the type of the fee model and shows 50: the [flatDomestic] arm of its
    own fee branch is out of reach. *)
Theorem flat_with_international_domestic_fee :
  let abroad :=
    {| feeModel := Samples.wireTransfer;
       settlement := Samples.settles (Js.Num 1) (Some (Js.Num 3)) None |} in
  let home :=
    {| feeModel := Samples.wireTransfer;
       settlement := Samples.settles (Js.Num 1) None None |} in
  let scenario := Samples.scenarioOf (Some "Domestic"%string) (Some home) in
  (feePerTransaction 50 Samples.wireTransfer true == 50
   /\ feePerTransaction 50 Samples.wireTransfer false == 30)
  /\ feePerTransaction 50 Samples.wireTransfer
       (isInternational (Samples.scenarioOf None (Some abroad)) abroad) == 50
  /\ (internationalDays (settlement home) = None
      /\ transactionType scenario <> Some "International"%string
      /\ isInternational scenario home = true
      /\ feePerTransaction 50 Samples.wireTransfer (isInternational scenario home) == 50
      /\ ~ feePerTransaction 50 Samples.wireTransfer (isInternational scenario home) == 30).
Proof.
  cbv zeta. repeat split; try reflexivity; try discriminate.
Qed.

(** * Further properties of the simulator *)

(** ** Bounds and monotonicity of the fee *)

Lemma or_else_nonneg (o : option Q) :
  (forall n, o = Some n -> 0 <= n) -> 0 <= o <||> 0.
Proof.
  intro H. unfold Js.or_else, Js.when_truthy.
  destruct o as [n|]; [|apply Qle_refl].
  destruct (Js.truthy_num n); [apply H; reflexivity | apply Qle_refl].
Qed.

(** X1.  With a cap configured and not negative, the capped fee never
    exceeds the cap. *)
Theorem capped_fee_at_most_cap (amount : Q) (feeModel : FeeModel)
    (isInternational : bool) (c : Q) :
  type feeModel = "percent_plus_fixed_with_cap"%string ->
  cap feeModel = Some c ->
  0 <= c ->
  feePerTransaction amount feeModel isInternational <= c.
Proof.
  intros Ht Hc H0. rewrite fee_capped_branch by exact Ht. rewrite Hc.
  apply Q.max_lub; [exact H0 | apply Q.le_min_r].
Qed.

Lemma capped_fee_at_most_cap_witness :
  feePerTransaction 5000 (Samples.capped (Some (9 # 5))) false <= 9 # 5.
Proof.
  apply (capped_fee_at_most_cap 5000 (Samples.capped (Some (9 # 5))) false (9 # 5)).
  - reflexivity.
  - reflexivity.
  - discriminate.
Defined.

(** X2.  With a percent that is not negative, the fee never goes down when
    the amount goes up, whatever the variant. *)
Theorem fee_monotone_in_amount (amount1 amount2 : Q) (feeModel : FeeModel)
    (isInternational : bool) :
  (forall p, percent feeModel = Some p -> 0 <= p) ->
  amount1 <= amount2 ->
  feePerTransaction amount1 feeModel isInternational
  <= feePerTransaction amount2 feeModel isInternational.
Proof.
  intros Hp Ha. apply or_else_nonneg in Hp.
  assert (Hc : amount1 * (percent feeModel <||> 0) + (fixed feeModel <||> 0)
               <= amount2 * (percent feeModel <||> 0) + (fixed feeModel <||> 0)).
  { apply Qplus_le_l. apply Qmult_le_compat_r; assumption. }
  unfold feePerTransaction. apply Q.max_le_compat_l.
  repeat match goal with
  | |- context [String.eqb ?s ?lit] => destruct (String.eqb s lit)
  end; try apply Qle_refl; try exact Hc.
  destruct (cap feeModel); [apply Q.min_le_compat_r|]; exact Hc.
Qed.

Lemma fee_monotone_in_amount_witness :
  feePerTransaction 5 (Samples.capped None) false
  <= feePerTransaction 5000 (Samples.capped None) false.
Proof.
  apply (fee_monotone_in_amount 5 5000 (Samples.capped None) false).
  - intros p [= <-]. discriminate.
  - discriminate.
Defined.

(** X3.  The amount matters to the two percent variants only: with any
    other type two amounts give the same fee. *)
Theorem fee_independent_of_amount (amount1 amount2 : Q) (feeModel : FeeModel)
    (isInternational : bool) :
  type feeModel <> "percent_plus_fixed"%string ->
  type feeModel <> "percent_plus_fixed_with_cap"%string ->
  feePerTransaction amount1 feeModel isInternational
  = feePerTransaction amount2 feeModel isInternational.
Proof.
  intros H1 H2. unfold feePerTransaction.
  apply String.eqb_neq in H1, H2. rewrite H1, H2. reflexivity.
Qed.

Lemma fee_independent_of_amount_witness :
  feePerTransaction 5 Samples.wireTransfer true
  = feePerTransaction 5000 Samples.wireTransfer true.
Proof.
  apply (fee_independent_of_amount 5 5000 Samples.wireTransfer true); discriminate.
Defined.

(** X4.  The international flag matters to "flat_with_international" and
    "wire" only: with any other type the fee is the same for a domestic and
    an international transaction. *)
Theorem fee_independent_of_flag (amount : Q) (feeModel : FeeModel) :
  type feeModel <> "flat_with_international"%string ->
  type feeModel <> "wire"%string ->
  feePerTransaction amount feeModel true = feePerTransaction amount feeModel false.
Proof.
  intros H1 H2. unfold feePerTransaction.
  apply String.eqb_neq in H1, H2. rewrite H1, H2. reflexivity.
Qed.

Lemma fee_independent_of_flag_witness :
  feePerTransaction 100 (Samples.capped None) true
  = feePerTransaction 100 (Samples.capped None) false.
Proof.
  apply (fee_independent_of_flag 100 (Samples.capped None)); discriminate.
Defined.

(** X5.  A wire whose multiplier, if configured, is at least 1 never costs
    less abroad than at home. *)
Theorem wire_international_at_least_domestic (amount : Q) (feeModel : FeeModel) :
  type feeModel = "wire"%string ->
  (forall m, internationalMultiplier feeModel = Some m -> 1 <= m) ->
  feePerTransaction amount feeModel false <= feePerTransaction amount feeModel true.
Proof.
  intros Ht Hm. rewrite !fee_wire_branch by exact Ht.
  destruct (Js.when_truthy Js.truthy_num (internationalMultiplier feeModel)) as [m|] eqn:E;
    [|apply Qle_refl].
  apply when_truthy_some in E as [E _]. apply Hm in E.
  set (f := flat feeModel <||> 0).
  apply Q.max_lub; [apply Q.le_max_l|].
  destruct (Qlt_le_dec f 0) as [Hneg|Hpos].
  - apply Qle_trans with 0; [apply Qlt_le_weak; exact Hneg | apply Q.le_max_l].
  - apply Qle_trans with (f * m); [|apply Q.le_max_r].
    rewrite <- (Qmult_1_r f) at 1.
    rewrite !(Qmult_comm f). apply Qmult_le_compat_r; assumption.
Qed.

Lemma wire_international_at_least_domestic_witness :
  feePerTransaction 50 (Samples.legacyWire 40 (Some (5 # 4))) false
  <= feePerTransaction 50 (Samples.legacyWire 40 (Some (5 # 4))) true.
Proof.
  apply (wire_international_at_least_domestic 50 (Samples.legacyWire 40 (Some (5 # 4)))).
  - reflexivity.
  - intros m [= <-]. discriminate.
Defined.

(** X6.  A cap only lowers the fee: the capped variant never costs more
    than the uncapped variant with the same percent and fixed part. *)
Theorem cap_only_lowers (amount : Q) (capped plain : FeeModel) (i i' : bool) :
  type capped = "percent_plus_fixed_with_cap"%string ->
  type plain = "percent_plus_fixed"%string ->
  percent capped = percent plain ->
  fixed capped = fixed plain ->
  feePerTransaction amount capped i <= feePerTransaction amount plain i'.
Proof.
  intros Hc Hp Hper Hfix. rewrite fee_capped_branch by exact Hc.
  unfold feePerTransaction at 1. rewrite Hp. simpl String.eqb. cbv iota.
  rewrite Hper, Hfix. apply Q.max_le_compat_l.
  destruct (cap capped); [apply Q.le_min_l | apply Qle_refl].
Qed.

Lemma cap_only_lowers_witness :
  let plain :=
    {| type := "percent_plus_fixed"; percent := Some (29 # 1000);
       fixed := Some (3 # 10); flat := None; cap := None; flatDomestic := None;
       flatInternational := None; internationalMultiplier := None |} in
  feePerTransaction 100 (Samples.capped (Some (9 # 5))) false
  <= feePerTransaction 100 plain false.
Proof.
  intro plain.
  apply (cap_only_lowers 100 (Samples.capped (Some (9 # 5))) plain false false);
    reflexivity.
Defined.

(** ** The monthly fees and the settlement display of the component *)

Lemma feePerTransaction_nonneg_helper (amount : Q) (feeModel : FeeModel)
    (isInternational : bool) :
  0 <= feePerTransaction amount feeModel isInternational.
Proof. apply Q.le_max_l. Qed.

(** With truthy international days the component derives an international
    transaction, so the flag it passes on never holds the days back. *)
Lemma settlementTime_of_settlement (scenario : Scenario) (economics : EconomicsConfig) :
  settlementTime economics (isInternational scenario economics)
  = settlementTime economics true.
Proof.
  unfold settlementTime, isInternational.
  destruct (Js.when_truthy Js.truthy_str _); [reflexivity|].
  destruct (internationalDays (settlement economics)) as [d|]; simpl.
  - destruct (Js.truthy d); simpl; [reflexivity|].
    destruct (_ || _); reflexivity.
  - destruct (_ || _); reflexivity.
Qed.

(** X7.  The monthly fees are never negative for a volume that is not
    negative, and a larger volume never gives smaller monthly fees. *)
Theorem monthlyFees_monotone_in_volume (scenario : Scenario) (amount volume1 volume2 : Q)
    (view1 view2 : View) :
  CostTimeSimulator scenario amount volume1 = Some view1 ->
  CostTimeSimulator scenario amount volume2 = Some view2 ->
  0 <= volume1 ->
  volume1 <= volume2 ->
  0 <= monthly view1 /\ monthly view1 <= monthly view2.
Proof.
  unfold CostTimeSimulator. destruct (economics scenario) as [e|]; [|discriminate].
  intros [= <-] [= <-] H0 Hle. simpl. unfold monthlyFees.
  pose proof (feePerTransaction_nonneg_helper amount (feeModel e) (isInternational scenario e)) as Hf.
  split.
  - apply Qmult_le_0_compat; assumption.
  - rewrite !(Qmult_comm (feePerTransaction _ _ _)).
    apply Qmult_le_compat_r; assumption.
Qed.

Lemma monthlyFees_monotone_in_volume_witness :
  let scenario := Catalogues.debit in
  exists view1 view2,
    CostTimeSimulator scenario 100 1 = Some view1
    /\ CostTimeSimulator scenario 100 2000 = Some view2
    /\ 0 <= monthly view1 /\ monthly view1 <= monthly view2.
Proof.
  intro scenario. eexists. eexists.
  split; [reflexivity|]. split; [reflexivity|].
  apply (monthlyFees_monotone_in_volume scenario 100 1 2000).
  - reflexivity.
  - reflexivity.
  - discriminate.
  - discriminate.
Defined.

(** X8.  The settlement display of the component depends on the settlement
    configuration alone: two scenarios with the same settlement
    configuration show the same settlement time, whatever their
    transactionType, their fee model and the state of the sliders. *)
Theorem settlement_display_of_settlement_alone (scenario1 scenario2 : Scenario)
    (economics1 economics2 : EconomicsConfig) (amount1 amount2 volume1 volume2 : Q)
    (view1 view2 : View) :
  economics scenario1 = Some economics1 ->
  economics scenario2 = Some economics2 ->
  settlement economics1 = settlement economics2 ->
  CostTimeSimulator scenario1 amount1 volume1 = Some view1 ->
  CostTimeSimulator scenario2 amount2 volume2 = Some view2 ->
  settlementDisplay view1 = settlementDisplay view2.
Proof.
  intros H1 H2 Hs. unfold CostTimeSimulator. rewrite H1, H2.
  intros [= <-] [= <-]. simpl.
  rewrite !settlementTime_of_settlement. unfold settlementTime. rewrite Hs. reflexivity.
Qed.

Lemma settlement_display_of_settlement_alone_witness :
  let s := Samples.settles (Js.Num 1) (Some (Js.Num 3)) None in
  let home := {| feeModel := Samples.capped None; settlement := s |} in
  let abroad := {| feeModel := Samples.wireTransfer; settlement := s |} in
  exists view1 view2,
    CostTimeSimulator (Samples.scenarioOf (Some "Domestic"%string) (Some home)) 5 1
    = Some view1
    /\ CostTimeSimulator (Samples.scenarioOf (Some "International"%string) (Some abroad))
         5000 2000 = Some view2
    /\ settlementDisplay view1 = settlementDisplay view2
    /\ settlementDisplay view1 = Js.Num 3.
Proof.
  intros s home abroad. eexists. eexists.
  split; [reflexivity|]. split; [reflexivity|]. split; [|reflexivity].
  apply (settlement_display_of_settlement_alone
           (Samples.scenarioOf (Some "Domestic"%string) (Some home))
           (Samples.scenarioOf (Some "International"%string) (Some abroad))
           home abroad 5 5000 1 2000); reflexivity.
Defined.

(** * The route diagram *)

(** ** Mapping with the index *)

Section MapIndex.

Context {A B : Type}.
Variable f : A -> nat -> B.

Lemma map_from_length (l : list A) (i : nat) :
  length (JsLib.map_from f i l) = length l.
Proof.
  revert i. induction l as [|a l IH]; intro i; simpl; [reflexivity|].
  now rewrite IH.
Qed.

Lemma map_from_nth (l : list A) (i k : nat) :
  nth_error (JsLib.map_from f i l) k
  = option_map (fun a => f a (i + k)%nat) (nth_error l k).
Proof.
  revert i k. induction l as [|a l IH]; intros i k; destruct k; simpl; try reflexivity.
  - now rewrite Nat.add_0_r.
  - rewrite IH. now rewrite Nat.add_succ_r.
Qed.

Lemma map_from_In (l : list A) (i : nat) (y : B) :
  In y (JsLib.map_from f i l) ->
  exists a k, nth_error l k = Some a /\ y = f a (i + k)%nat.
Proof.
  intro H. apply In_nth_error in H as [k H].
  rewrite map_from_nth in H.
  destruct (nth_error l k) as [a|] eqn:E; [|discriminate].
  exists a, k. split; [exact E|]. simpl in H. now injection H as <-.
Qed.

(** Images that tell their index apart are pairwise distinct. *)
Lemma map_from_NoDup (l : list A) (i : nat) :
  (forall a b j k, f a j = f b k -> j = k) ->
  NoDup (JsLib.map_from f i l).
Proof.
  intro Hinj. revert i. induction l as [|a l IH]; intro i; simpl; constructor.
  - intro H. apply map_from_In in H as (b & k & _ & E).
    apply Hinj in E. lia.
  - apply IH.
Qed.

End MapIndex.

Lemma map_from_forget {A B C : Type} (f : A -> nat -> B) (g : B -> C) (h : A -> C)
    (l : list A) (i : nat) :
  (forall a j, g (f a j) = h a) ->
  List.map g (JsLib.map_from f i l) = List.map h l.
Proof.
  intro H. revert i. induction l as [|a l IH]; intro i; simpl; [reflexivity|].
  now rewrite H, IH.
Qed.

(** ** The layout *)

Lemma index_number_S (k : nat) :
  JsLib.index_number (S k) == JsLib.index_number k + 1.
Proof.
  unfold JsLib.index_number. rewrite Nat2Z.inj_succ, <- Z.add_1_r.
  rewrite inject_Z_plus. reflexivity.
Qed.

Lemma index_number_le (k n : nat) :
  (k <= n)%nat -> JsLib.index_number k <= JsLib.index_number n.
Proof.
  intro H. unfold JsLib.index_number. rewrite <- Zle_Qle. lia.
Qed.

Lemma totalWidth_bounds (n : nat) :
  1600 <= RouteDiagram.totalWidth n
  /\ JsLib.index_number n * 200 <= RouteDiagram.totalWidth n.
Proof.
  unfold RouteDiagram.totalWidth. split; [apply Q.le_max_l | apply Q.le_max_r].
Qed.

(** With two nodes or more, the spacing times the number of gaps is the
    total width. *)
Lemma spacing_gaps (n : nat) :
  (2 <= n)%nat ->
  RouteDiagram.spacing n * (JsLib.index_number n - 1) == RouteDiagram.totalWidth n
  /\ 0 < JsLib.index_number n - 1.
Proof.
  intro H. unfold RouteDiagram.spacing.
  destruct (Nat.ltb_spec 1 n) as [_|Hn]; [|lia].
  assert (Hd : 0 < JsLib.index_number n - 1).
  { pose proof (index_number_le 2 n H) as H2.
    change (JsLib.index_number 2) with 2 in H2. lra. }
  split; [|exact Hd].
  rewrite Qmult_comm. apply Qmult_div_r. lra.
Qed.

(** The nodes of the diagram, one by one. *)
Lemma diagram_node_at (scenario : Entry) (simpleMode : bool)
    (simplifyLabel : option (string -> string)) (k : nat) (node : FlowNode.t) :
  nth_error (RouteDiagram.nodes scenario simpleMode simplifyLabel) k = Some node ->
  (k < length (nodes scenario))%nat
  /\ FlowNode.x (FlowNode.position node)
     = JsLib.index_number k * RouteDiagram.spacing (length (nodes scenario))
  /\ FlowNode.y (FlowNode.position node) = 200.
Proof.
  unfold RouteDiagram.nodes, JsLib.map_index. rewrite map_from_nth.
  destruct (nth_error (nodes scenario) k) as [n|] eqn:E; [|discriminate].
  intros [= <-]. simpl. split; [|split; reflexivity].
  apply nth_error_Some. congruence.
Qed.

(** The diagram has one node for each node of the scenario, in the same
    order and with the same id. *)
Lemma diagram_nodes_ids (scenario : Entry) (simpleMode : bool)
    (simplifyLabel : option (string -> string)) :
  List.map FlowNode.id (RouteDiagram.nodes scenario simpleMode simplifyLabel)
  = List.map PaymentNode.id (nodes scenario).
Proof.
  unfold RouteDiagram.nodes, JsLib.map_index.
  apply map_from_forget. reflexivity.
Qed.

(** X11.  Neighbouring nodes of the diagram are more than 200 apart, the
    later one to the right: no two nodes share a place. *)
Theorem diagram_nodes_apart (scenario : Entry) (simpleMode : bool)
    (simplifyLabel : option (string -> string)) (k : nat) (left right : FlowNode.t) :
  nth_error (RouteDiagram.nodes scenario simpleMode simplifyLabel) k = Some left ->
  nth_error (RouteDiagram.nodes scenario simpleMode simplifyLabel) (S k) = Some right ->
  200 < FlowNode.x (FlowNode.position right) - FlowNode.x (FlowNode.position left).
Proof.
  intros Hl Hr.
  apply diagram_node_at in Hl as (_ & Hxl & _).
  apply diagram_node_at in Hr as (Hk & Hxr & _).
  rewrite Hxl, Hxr. set (n := length (nodes scenario)) in *.
  assert (H2 : (2 <= n)%nat) by lia.
  destruct (spacing_gaps n H2) as [E Hd].
  destruct (totalWidth_bounds n) as [_ Hw].
  rewrite index_number_S.
  assert (Hs : 200 < RouteDiagram.spacing n).
  { destruct (Qlt_le_dec 200 (RouteDiagram.spacing n)) as [|Hle]; [assumption|].
    exfalso.
    assert (RouteDiagram.spacing n * (JsLib.index_number n - 1)
            <= 200 * (JsLib.index_number n - 1)).
    { apply Qmult_le_compat_r; [exact Hle | lra]. }
    lra. }
  lra.
Qed.

Lemma diagram_nodes_apart_witness :
  exists left right,
    nth_error (RouteDiagram.nodes Catalogues.debit false None) 1 = Some left
    /\ nth_error (RouteDiagram.nodes Catalogues.debit false None) 2 = Some right
    /\ 200 < FlowNode.x (FlowNode.position right) - FlowNode.x (FlowNode.position left).
Proof.
  eexists. eexists. split; [reflexivity|]. split; [reflexivity|].
  apply (diagram_nodes_apart Catalogues.debit false None 1); reflexivity.
Defined.

(** ** The ids of the edges *)

Lemma map_map_from {A B C : Type} (f : A -> nat -> B) (g : B -> C) (l : list A) (i : nat) :
  List.map g (JsLib.map_from f i l) = JsLib.map_from (fun a j => g (f a j)) i l.
Proof.
  revert i. induction l as [|a l IH]; intro i; simpl; [reflexivity|].
  now rewrite IH.
Qed.

Lemma append_dash_assoc (u v w : string) :
  (u ++ String "-" (v ++ w) = (u ++ String "-" v) ++ w)%string.
Proof.
  induction u as [|c u IH]; simpl; [reflexivity|]. now rewrite IH.
Qed.

(** The digits of an index hold no dash. *)
Lemma index_string_dashless (index : nat) (u v : string) :
  JsLib.index_string index <> (u ++ String "-" v)%string.
Proof.
  unfold JsLib.index_string. generalize (Nat.to_uint index) as d.
  intro d. revert u.
  induction d as [|d IH|d IH|d IH|d IH|d IH|d IH|d IH|d IH|d IH|d IH];
    intros [|c u]; simpl; try discriminate;
    intros [= _ E]; exact (IH _ E).
Qed.

Lemma index_string_inj (j k : nat) :
  JsLib.index_string j = JsLib.index_string k -> j = k.
Proof.
  unfold JsLib.index_string. intro H.
  assert (E : Some (Nat.to_uint j) = Some (Nat.to_uint k)).
  { rewrite <- !NilEmpty.usu. now rewrite H. }
  injection E as E.
  rewrite <- (DecimalNat.Unsigned.of_to j), <- (DecimalNat.Unsigned.of_to k).
  now rewrite E.
Qed.

(** What follows the last dash of a string is determined by the string. *)
Lemma after_last_dash (x y d1 d2 : string) :
  (forall u v, d1 <> (u ++ String "-" v)%string) ->
  (forall u v, d2 <> (u ++ String "-" v)%string) ->
  (x ++ String "-" d1 = y ++ String "-" d2)%string ->
  d1 = d2.
Proof.
  intros H1 H2. revert y.
  induction x as [|c x IH]; intros [|c' y]; simpl.
  - now intros [= ->].
  - intros [= _ E]. now elim (H1 y d2).
  - intros [= _ E]. symmetry in E. now elim (H2 x d1).
  - intros [= _ E]. exact (IH _ E).
Qed.

Lemma edge_id_index (from1 to1 from2 to2 : string) (j k : nat) :
  (from1 ++ "-" ++ to1 ++ "-" ++ JsLib.index_string j
   = from2 ++ "-" ++ to2 ++ "-" ++ JsLib.index_string k)%string ->
  j = k.
Proof.
  change (from1 ++ String "-" (to1 ++ String "-" (JsLib.index_string j))
          = from2 ++ String "-" (to2 ++ String "-" (JsLib.index_string k))
          -> j = k)%string.
  rewrite !append_dash_assoc. intro H.
  apply index_string_inj.
  eapply after_last_dash; [| |exact H]; apply index_string_dashless.
Qed.

(** X12.  The ids of the edges of the diagram are pairwise distinct, also
    for edges between the same two nodes and whatever dashes the ids of the
    nodes hold. *)
Theorem diagram_edge_ids_distinct (scenario : Entry) :
  NoDup (List.map FlowEdge.id (RouteDiagram.edges scenario)).
Proof.
  unfold RouteDiagram.edges, JsLib.map_index. rewrite map_map_from.
  apply map_from_NoDup. intros e1 e2 j k H. simpl in H.
  exact (edge_id_index _ _ _ _ j k H).
Qed.

(** The diagram has one edge for each edge of the scenario, in the same
    order, from the same node to the same node and with the same label. *)
Lemma diagram_edges_endpoints (scenario : Entry) :
  List.map (fun e => (FlowEdge.source e, FlowEdge.target e, FlowEdge.label e))
    (RouteDiagram.edges scenario)
  = List.map (fun e => (PaymentEdge.from e, PaymentEdge.to e, PaymentEdge.label e))
      (edges scenario).
Proof.
  unfold RouteDiagram.edges, JsLib.map_index.
  apply map_from_forget. reflexivity.
Qed.

(** The ids of two parallel edges of the sample. *)
Example diagram_edge_ids_example :
  List.map FlowEdge.id (RouteDiagram.edges Catalogues.debit)
  = [ "user-terminal-0"; "terminal-issuer-1"; "terminal-issuer-2" ]%string.
Proof. reflexivity. Qed.

(** * The explorer page *)

(** ** Finding a scenario *)

Section Catalogue.

Variable c : Catalogue.

Lemma find_by_id (l : list Entry) (s : Entry) :
  NoDup (List.map (fun s : Entry => id s) l) ->
  In s l ->
  List.find (fun s' : Entry => String.eqb (id s') (id s)) l = Some s.
Proof.
  induction l as [|s' l IH]; intros Hnd Hin; [contradiction|].
  simpl in *. inversion Hnd as [|? ? Hnotin Hnd']; subst.
  destruct Hin as [->|Hin].
  - now rewrite String.eqb_refl.
  - destruct (String.eqb_spec (id s') (id s)) as [E|_]; [|now apply IH].
    elim Hnotin. rewrite E. now apply (in_map (fun s : Entry => id s)).
Qed.


Lemma otherThan_differs (a : Entry) :
  NoDup (List.map (fun s : Entry => id s) (scenarios c)) ->
  id (Explorer.otherThan c a) <> id a.
Proof.
  intro Hnd. unfold Explorer.otherThan, JsLib.object_or.
  destruct (List.find _ _) as [s|] eqn:E.
  - apply List.find_some in E as [_ E].
    apply negb_true_iff in E. now apply String.eqb_neq.
  - exfalso. simpl in Hnd. inversion Hnd as [|? ? Hnotin _]; subst.
    pose proof (List.find_none _ _ E (scenario0 c) (or_introl eq_refl)) as E0.
    pose proof (List.find_none _ _ E (scenario1 c) (or_intror (or_introl eq_refl))) as E1.
    simpl in E0, E1. apply negb_false_iff in E0, E1.
    apply String.eqb_eq in E0, E1.
    apply Hnotin. simpl. left. congruence.
Qed.

Lemma findScenarioById_In (i : option string) (s : Entry) :
  Explorer.findScenarioById c i = Some s ->
  i = Some (id s) /\ In s (scenarios c) /\ id s <> EmptyString.
Proof.
  unfold Explorer.findScenarioById.
  destruct (Js.when_truthy Js.truthy_str i) as [w|] eqn:E; [|discriminate].
  apply when_truthy_some in E as [-> Hw]. intro H.
  apply List.find_some in H as [Hin H]. apply String.eqb_eq in H. subst w.
  split; [reflexivity|]. split; [exact Hin|]. now apply truthy_str_true.
Qed.




End Catalogue.

Lemma findScenarioById_of_id_helper (c : Catalogue) (s : Entry) :
  NoDup (List.map (fun s : Entry => id s) (scenarios c)) ->
  In s (scenarios c) ->
  id s <> EmptyString ->
  Explorer.findScenarioById c (Some (id s)) = Some s.
Proof.
  intros Hnd Hin Hid. unfold Explorer.findScenarioById.
  cbn [Js.when_truthy]. apply truthy_str_true in Hid. rewrite Hid.
  now apply find_by_id.
Qed.

(** X13.  A scenario found by id is a scenario of the catalogue with that
    id, and the id is not empty. *)
Theorem findScenarioById_found (c : Catalogue) (i : option string) (s : Entry) :
  Explorer.findScenarioById c i = Some s ->
  i = Some (id s) /\ In s (scenarios c) /\ id s <> EmptyString.
Proof.
  apply findScenarioById_In.
Qed.

Lemma findScenarioById_found_witness :
  Explorer.findScenarioById Catalogues.sample (Some "credit-card"%string)
  = Some Catalogues.credit
  /\ In Catalogues.credit (scenarios Catalogues.sample)
  /\ id Catalogues.credit <> EmptyString.
Proof.
  split; [reflexivity|].
  apply (findScenarioById_found Catalogues.sample (Some "credit-card"%string)
           Catalogues.credit).
  reflexivity.
Defined.

(** X14.  No scenario is found exactly when the id is missing, or empty, or
    the id of no scenario of the catalogue: the empty id finds nothing even
    if a scenario has it. *)
Theorem findScenarioById_null (c : Catalogue) (i : option string) :
  Explorer.findScenarioById c i = None
  <-> i = None
      \/ i = Some EmptyString
      \/ exists wanted, i = Some wanted
                        /\ forall s : Entry, In s (scenarios c) -> id s <> wanted.
Proof.
  unfold Explorer.findScenarioById.
  destruct i as [[|ch w]|]; cbn [Js.when_truthy Js.truthy_str].
  - split; [intros _; right; left; reflexivity | reflexivity].
  - split.
    + intro H. right. right. exists (String ch w). split; [reflexivity|].
      intros s Hin. apply (List.find_none _ _ H) in Hin.
      now apply String.eqb_neq.
    + intros [H|[H|(w' & [= <-] & H)]]; try discriminate.
      destruct (List.find _ _) as [s|] eqn:E; [|reflexivity].
      apply List.find_some in E as [Hin E]. apply String.eqb_eq in E.
      now elim (H s Hin).
  - split; [intros _; left; reflexivity | reflexivity].
Qed.

(** X15.  In a catalogue with pairwise distinct ids, looking up the id of a
    scenario of the catalogue finds this scenario, provided the id is not
    empty. *)
Theorem findScenarioById_of_id (c : Catalogue) (s : Entry) :
  NoDup (List.map (fun s : Entry => id s) (scenarios c)) ->
  In s (scenarios c) ->
  id s <> EmptyString ->
  Explorer.findScenarioById c (Some (id s)) = Some s.
Proof.
  apply findScenarioById_of_id_helper.
Qed.

Lemma sample_ids_distinct :
  NoDup (List.map (fun s : Entry => id s) (scenarios Catalogues.sample)).
Proof.
  simpl. repeat constructor; simpl; intuition discriminate.
Defined.

Lemma findScenarioById_of_id_witness :
  Explorer.findScenarioById Catalogues.sample (Some (id Catalogues.wire))
  = Some Catalogues.wire.
Proof.
  apply (findScenarioById_of_id Catalogues.sample Catalogues.wire).
  - exact sample_ids_distinct.
  - simpl. tauto.
  - discriminate.
Defined.



(** ** The state of the first render *)


(** The initial A and B differ when the ids of the catalogue do. *)
Lemma initial_ids_differ (c : Catalogue) (searchParams : JsLib.SearchParams) :
  NoDup (List.map (fun s : Entry => id s) (scenarios c)) ->
  id (Explorer.a (Explorer.initialState c searchParams))
  <> id (Explorer.b (Explorer.initialState c searchParams)).
Proof.
  intro Hnd. unfold Explorer.initialState.
  destruct (Js.opt_is _ _); cbn [Explorer.a Explorer.b].
  - destruct (String.eqb_spec
                (id (JsLib.object_or
                       (Explorer.findScenarioById c (JsLib.get searchParams "a"))
                       (scenario0 c)))
                (id (JsLib.object_or
                       (Explorer.findScenarioById c (JsLib.get searchParams "b"))
                       (scenario1 c)))) as [E|E]; [|exact E].
    intro H. symmetry in H. revert H. now apply otherThan_differs.
  - simpl in Hnd. inversion Hnd as [|? ? Hnotin _]; subst.
    intro E. apply Hnotin. simpl. left. now symmetry.
Qed.

(** X18.  In a catalogue with pairwise distinct ids the initial state never
    has the same scenario as A and as B, whatever the query asks for. *)
Theorem initialState_distinct (c : Catalogue) (searchParams : JsLib.SearchParams) :
  NoDup (List.map (fun s : Entry => id s) (scenarios c)) ->
  id (Explorer.a (Explorer.initialState c searchParams))
  <> id (Explorer.b (Explorer.initialState c searchParams)).
Proof.
  apply initial_ids_differ.
Qed.

Lemma initialState_distinct_witness :
  let asked := [ ("compare", "1"); ("a", "wire"); ("b", "wire") ]%string in
  Explorer.a (Explorer.initialState Catalogues.sample asked) = Catalogues.wire
  /\ id (Explorer.a (Explorer.initialState Catalogues.sample asked))
     <> id (Explorer.b (Explorer.initialState Catalogues.sample asked)).
Proof.
  intro asked. split; [reflexivity|].
  apply (initialState_distinct Catalogues.sample asked).
  exact sample_ids_distinct.
Defined.

(** ** The URL and back *)

(** X19.  In single mode the query written to the URL brings the page back
    to the selected scenario: read by the first render of a reload, it
    gives single mode with the same scenario selected, provided the
    scenario is in the catalogue, its id is not empty and the ids of the
    catalogue are pairwise distinct. *)
Theorem url_round_trip_single (c : Catalogue) (st : Explorer.State) :
  Explorer.isInitialized st = true ->
  Explorer.compareMode st = false ->
  NoDup (List.map (fun s : Entry => id s) (scenarios c)) ->
  In (Explorer.selectedScenario st) (scenarios c) ->
  id (Explorer.selectedScenario st) <> EmptyString ->
  exists params,
    Explorer.syncURL st = Some params
    /\ Explorer.compareMode (Explorer.initial c params) = false
    /\ Explorer.selectedScenario (Explorer.initial c params)
       = Explorer.selectedScenario st.
Proof.
  intros Hi Hc Hnd Hin Hid.
  unfold Explorer.syncURL, Explorer.updateURL. rewrite Hi, Hc. simpl negb. cbv iota.
  eexists. split; [reflexivity|].
  unfold Explorer.initial, Explorer.initialState. simpl.
  split; [reflexivity|].
  change (JsLib.get _ "s") with (Some (id (Explorer.selectedScenario st))).
  now rewrite findScenarioById_of_id_helper.
Qed.

Lemma url_round_trip_single_witness :
  let st := Catalogues.stateOf false Catalogues.wire Catalogues.debit Catalogues.credit in
  exists params,
    Explorer.syncURL st = Some params
    /\ Explorer.compareMode (Explorer.initial Catalogues.sample params) = false
    /\ Explorer.selectedScenario (Explorer.initial Catalogues.sample params)
       = Catalogues.wire.
Proof.
  intro st. apply (url_round_trip_single Catalogues.sample st).
  - reflexivity.
  - reflexivity.
  - exact sample_ids_distinct.
  - simpl. tauto.
  - discriminate.
Defined.

(** X20.  In compare mode the query written to the URL brings the page back
    to the two scenarios: read by the first render of a reload, it gives
    compare mode with the same A and the same B, provided the two are
    scenarios of the catalogue with different ids that are not empty and
    the ids of the catalogue are pairwise distinct. *)
Theorem url_round_trip_compare (c : Catalogue) (st : Explorer.State) :
  Explorer.isInitialized st = true ->
  Explorer.compareMode st = true ->
  NoDup (List.map (fun s : Entry => id s) (scenarios c)) ->
  In (Explorer.scenarioA st) (scenarios c) ->
  In (Explorer.scenarioB st) (scenarios c) ->
  id (Explorer.scenarioA st) <> EmptyString ->
  id (Explorer.scenarioB st) <> EmptyString ->
  id (Explorer.scenarioA st) <> id (Explorer.scenarioB st) ->
  exists params,
    Explorer.syncURL st = Some params
    /\ Explorer.compareMode (Explorer.initial c params) = true
    /\ Explorer.scenarioA (Explorer.initial c params) = Explorer.scenarioA st
    /\ Explorer.scenarioB (Explorer.initial c params) = Explorer.scenarioB st.
Proof.
  intros Hi Hc Hnd HinA HinB HidA HidB Hab.
  unfold Explorer.syncURL, Explorer.updateURL. rewrite Hi, Hc. simpl negb. cbv iota.
  eexists. split; [reflexivity|].
  unfold Explorer.initial, Explorer.initialState.
  change (JsLib.get _ "compare") with (Some "1"%string).
  change (JsLib.get _ "a") with (Some (id (Explorer.scenarioA st))).
  change (JsLib.get _ "b") with (Some (id (Explorer.scenarioB st))).
  rewrite !findScenarioById_of_id_helper by assumption.
  simpl. apply String.eqb_neq in Hab. rewrite Hab. repeat split.
Qed.

Lemma url_round_trip_compare_witness :
  let st := Catalogues.stateOf true Catalogues.debit Catalogues.wire Catalogues.credit in
  exists params,
    Explorer.syncURL st = Some params
    /\ Explorer.compareMode (Explorer.initial Catalogues.sample params) = true
    /\ Explorer.scenarioA (Explorer.initial Catalogues.sample params) = Catalogues.wire
    /\ Explorer.scenarioB (Explorer.initial Catalogues.sample params) = Catalogues.credit.
Proof.
  intro st. apply (url_round_trip_compare Catalogues.sample st).
  - reflexivity.
  - reflexivity.
  - exact sample_ids_distinct.
  - simpl. tauto.
  - simpl. tauto.
  - discriminate.
  - discriminate.
  - discriminate.
Defined.

(** ** The handlers of compare mode *)

(** A click in compare mode keeps the ids of A and B apart. *)
Lemma click_ids_differ (st : Explorer.State) (scenario : Entry) :
  Explorer.compareMode st = true ->
  id (Explorer.scenarioA st) <> id (Explorer.scenarioB st) ->
  id (Explorer.scenarioA (Explorer.clickScenario st scenario))
  <> id (Explorer.scenarioB (Explorer.clickScenario st scenario)).
Proof.
  intros Hc Hab. unfold Explorer.clickScenario. rewrite Hc.
  destruct (String.eqb_spec (id (Explorer.scenarioA st)) (id scenario)) as [Ea|Ea];
    [simpl; congruence|].
  destruct (String.eqb_spec (id (Explorer.scenarioB st)) (id scenario)) as [Eb|Eb];
    [simpl; congruence|].
  apply String.eqb_neq in Hab. rewrite Hab. simpl. exact Ea.
Qed.



(** X22.  After a click on the list the clicked scenario is on show: in
    compare mode it is A or B, otherwise it is the selected scenario; the
    mode does not change. *)
Theorem clickScenario_shows_clicked (st : Explorer.State) (scenario : Entry) :
  Explorer.compareMode (Explorer.clickScenario st scenario) = Explorer.compareMode st
  /\ if Explorer.compareMode st
     then Explorer.scenarioA (Explorer.clickScenario st scenario) = scenario
          \/ Explorer.scenarioB (Explorer.clickScenario st scenario) = scenario
     else Explorer.selectedScenario (Explorer.clickScenario st scenario) = scenario.
Proof.
  unfold Explorer.clickScenario. destruct (Explorer.compareMode st) eqn:Hc.
  - destruct (String.eqb _ _); [simpl; auto|].
    destruct (String.eqb _ _); [simpl; auto|].
    destruct (String.eqb _ _); simpl; auto.
  - simpl. auto.
Qed.

(** X23.  A choice in a dropdown always lands in its slot, but it keeps A
    and B different only when the chosen scenario is not the one of the
    other slot: choosing in A the scenario of B, or in B the scenario of A,
    leaves both slots on the chosen id; the two are not exchanged. *)
Theorem dropdown_same_as_other (st : Explorer.State) (scenario : Entry) :
  (id (Explorer.scenarioA (Explorer.selectA st scenario)) = id scenario
   /\ (id (Explorer.scenarioA (Explorer.selectA st scenario))
       = id (Explorer.scenarioB (Explorer.selectA st scenario))
       <-> id scenario = id (Explorer.scenarioB st)))
  /\ (id (Explorer.scenarioB (Explorer.selectB st scenario)) = id scenario
      /\ (id (Explorer.scenarioA (Explorer.selectB st scenario))
          = id (Explorer.scenarioB (Explorer.selectB st scenario))
          <-> id scenario = id (Explorer.scenarioA st))).
Proof.
  unfold Explorer.selectA, Explorer.selectB. split.
  - destruct (String.eqb_spec (id scenario) (id (Explorer.scenarioB st))) as [E|E];
      simpl; split; try tauto; try congruence. split; congruence.
  - destruct (String.eqb_spec (id scenario) (id (Explorer.scenarioA st))) as [E|E];
      simpl; split; try tauto; try congruence; split; congruence.
Qed.

(** The dropdown A on the sample: A is the debit and B the credit scenario;
    choosing the credit scenario as A leaves the credit scenario in both
    slots. *)
Example dropdown_example :
  let st := Catalogues.stateOf true Catalogues.debit Catalogues.debit Catalogues.credit in
  Explorer.scenarioA (Explorer.selectA st Catalogues.credit) = Catalogues.credit
  /\ Explorer.scenarioB (Explorer.selectA st Catalogues.credit) = Catalogues.credit.
Proof. split; reflexivity. Qed.

(** The button enters compare mode with ids of A and B apart. *)
Lemma toggle_ids_differ (c : Catalogue) (st : Explorer.State) :
  NoDup (List.map (fun s : Entry => id s) (scenarios c)) ->
  Explorer.compareMode st = false ->
  Explorer.compareMode (Explorer.toggleCompareMode c st) = true
  /\ Explorer.scenarioA (Explorer.toggleCompareMode c st) = Explorer.scenarioA st
  /\ id (Explorer.scenarioA (Explorer.toggleCompareMode c st))
     <> id (Explorer.scenarioB (Explorer.toggleCompareMode c st)).
Proof.
  intros Hnd Hc. unfold Explorer.toggleCompareMode. rewrite Hc. simpl.
  split; [reflexivity|]. split; [reflexivity|].
  destruct (String.eqb_spec (id (Explorer.scenarioA st)) (id (Explorer.scenarioB st)))
    as [E|E]; [|exact E].
  intro H. symmetry in H. revert H. now apply otherThan_differs.
Qed.

(** X24.  In a catalogue with pairwise distinct ids the "Compare Mode"
    button turns compare mode on with two different scenarios, even when A
    and B were the same before. *)
Theorem toggleCompareMode_distinct (c : Catalogue) (st : Explorer.State) :
  NoDup (List.map (fun s : Entry => id s) (scenarios c)) ->
  Explorer.compareMode st = false ->
  Explorer.compareMode (Explorer.toggleCompareMode c st) = true
  /\ Explorer.scenarioA (Explorer.toggleCompareMode c st) = Explorer.scenarioA st
  /\ id (Explorer.scenarioA (Explorer.toggleCompareMode c st))
     <> id (Explorer.scenarioB (Explorer.toggleCompareMode c st)).
Proof.
  apply toggle_ids_differ.
Qed.

Lemma toggleCompareMode_distinct_witness :
  let st := Catalogues.stateOf false Catalogues.debit Catalogues.wire Catalogues.wire in
  Explorer.compareMode (Explorer.toggleCompareMode Catalogues.sample st) = true
  /\ Explorer.scenarioA (Explorer.toggleCompareMode Catalogues.sample st) = Catalogues.wire
  /\ id (Explorer.scenarioA (Explorer.toggleCompareMode Catalogues.sample st))
     <> id (Explorer.scenarioB (Explorer.toggleCompareMode Catalogues.sample st)).
Proof.
  intro st. apply (toggleCompareMode_distinct Catalogues.sample st).
  - exact sample_ids_distinct.
  - reflexivity.
Defined.

(** ** Sessions of clicks *)

Lemma step_ids_differ (c : Catalogue) (st : Explorer.State) (e : Session.event) :
  NoDup (List.map (fun s : Entry => id s) (scenarios c)) ->
  id (Explorer.scenarioA st) <> id (Explorer.scenarioB st) ->
  id (Explorer.scenarioA (Session.step c st e))
  <> id (Explorer.scenarioB (Session.step c st e)).
Proof.
  intros Hnd Hab. destruct e as [scenario|]; unfold Session.step.
  - destruct (Explorer.compareMode st) eqn:Hc.
    + now apply click_ids_differ.
    + unfold Explorer.clickScenario. rewrite Hc. exact Hab.
  - destruct (Explorer.compareMode st) eqn:Hc.
    + unfold Explorer.toggleCompareMode. rewrite Hc. exact Hab.
    + now apply toggle_ids_differ.
Qed.

(** X25.  In a catalogue with pairwise distinct ids, A and B are different
    scenarios after the first render and stay different through every run
    of clicks on the list and on the "Compare Mode" button, whatever the
    query of the URL was. *)
Theorem session_keeps_distinct (c : Catalogue) (searchParams : JsLib.SearchParams)
    (events : list Session.event) :
  NoDup (List.map (fun s : Entry => id s) (scenarios c)) ->
  id (Explorer.scenarioA (Session.run c searchParams events))
  <> id (Explorer.scenarioB (Session.run c searchParams events)).
Proof.
  intro Hnd. unfold Session.run.
  assert (H0 : id (Explorer.scenarioA
                     (Explorer.markInitialized (Explorer.initial c searchParams)))
               <> id (Explorer.scenarioB
                        (Explorer.markInitialized (Explorer.initial c searchParams)))).
  { simpl. now apply initial_ids_differ. }
  revert H0. generalize (Explorer.markInitialized (Explorer.initial c searchParams)) as st.
  induction events as [|e events IH]; intros st H0; simpl; [exact H0|].
  apply IH. now apply step_ids_differ.
Qed.

Lemma session_keeps_distinct_witness :
  let events :=
    [ Session.Click Catalogues.wire; Session.Toggle; Session.Click Catalogues.debit;
      Session.Click Catalogues.wire; Session.Click Catalogues.wire ] in
  id (Explorer.scenarioA (Session.run Catalogues.sample [] events))
  <> id (Explorer.scenarioB (Session.run Catalogues.sample [] events)).
Proof.
  intro events. apply (session_keeps_distinct Catalogues.sample [] events).
  exact sample_ids_distinct.
Defined.

(** ** The simulators on the page *)

(** X26.  Every simulator the page mounts has something to show: the
    component does not return null for a scenario the page hands to it,
    in single mode and in compare mode, whatever the sliders say. *)
Theorem mounted_simulators_show (st : Explorer.State) (amount monthlyVolume : Q) :
  Forall (fun scenario =>
            exists view, CostTimeSimulator scenario amount monthlyVolume = Some view)
    (Explorer.simulators st).
Proof.
  unfold Explorer.simulators.
  destruct (Explorer.compareMode st).
  - destruct (economics (Explorer.scenarioA st)) eqn:Ea;
      destruct (economics (Explorer.scenarioB st)) eqn:Eb; repeat constructor;
      apply CostTimeSimulator_shown; congruence.
  - destruct (economics (Explorer.selectedScenario st)) eqn:E; repeat constructor.
    apply CostTimeSimulator_shown. congruence.
Qed.

(** In compare mode one scenario without economics hides both simulators. *)
Example mounted_simulators_example :
  Explorer.simulators (Catalogues.stateOf true Catalogues.debit Catalogues.debit Catalogues.wire)
  = []
  /\ Explorer.simulators (Catalogues.stateOf false Catalogues.debit Catalogues.debit Catalogues.wire)
     = [core Catalogues.debit].
Proof. split; reflexivity. Qed.

(** ** Simple mode *)

(** X27.  Simplifying a label twice is simplifying it once: a simplified
    label is left as it is. *)
Theorem simplifyNodeLabel_idempotent (label simple : string) :
  Explorer.simplifyNodeLabel label = Some simple ->
  Explorer.simplifyNodeLabel simple = Some simple.
Proof.
  unfold Explorer.simplifyNodeLabel at 1.
  destruct (JsLib.get Explorer.labelMap label) as [s|] eqn:E.
  - unfold JsLib.get, Explorer.labelMap in E. cbn [List.find fst] in E.
    repeat match type of E with
    | context [String.eqb ?key label] =>
        destruct (String.eqb key label);
        [cbn [snd] in E; injection E as <-; intros [= <-]; reflexivity|]
    end.
    discriminate E.
  - destruct (List.existsb (String.eqb label) JsLib.inherited) eqn:Ei; [discriminate|].
    intros [= <-]. unfold Explorer.simplifyNodeLabel. rewrite E, Ei. reflexivity.
Qed.

Lemma simplifyNodeLabel_idempotent_witness :
  Explorer.simplifyNodeLabel "Payment Gateway" = Some "Payment processor"%string
  /\ Explorer.simplifyNodeLabel "Payment processor" = Some "Payment processor"%string.
Proof.
  split; [reflexivity|].
  apply (simplifyNodeLabel_idempotent "Payment Gateway" "Payment processor").
  reflexivity.
Defined.

(** * The navigation bar *)

(** X28.  At most one link of the navigation bar is active, and one is
    active exactly on the three paths of the bar; a path below one of
    them, or with a trailing slash, activates none. *)
Theorem navigation_active (pathname : string) :
  (length (Navigation.active pathname) <= 1)%nat
  /\ (length (Navigation.active pathname) = 1%nat
      <-> In pathname (List.map Navigation.href Navigation.navLinks)).
Proof.
  unfold Navigation.active, Navigation.navLinks, Navigation.isActive. simpl.
  destruct (String.eqb_spec pathname "/") as [->|H1]; simpl.
  - split; [lia|]. split; auto.
  - destruct (String.eqb_spec pathname "/glossary") as [->|H2]; simpl.
    + split; [lia|]. split; auto.
    + destruct (String.eqb_spec pathname "/about") as [->|H3]; simpl.
      * split; [lia|]. split; auto.
      * split; [lia|]. split; [discriminate|].
        intros [E|[E|[E|[]]]]; congruence.
Qed.

Example navigation_trailing_slash :
  Navigation.active "/glossary/" = [] /\ Navigation.active "/about/team" = [].
Proof. split; reflexivity. Qed.
